(** * Student records service: the REST handlers over the [student_details] table

    A shallow embedding of the Express server of the repository (the five
    [/students] routes) together with the part of its environment the
    handlers observe: the JSON scalars of a request body, JavaScript
    truthiness and [parseInt], and the single SQLite table with its
    [INTEGER PRIMARY KEY AUTOINCREMENT] key, its [NOT NULL] columns and
    its column affinities.

    Conventions of the model.
    - A request field is a JSON scalar or absent ([JUndefined]); arrays
      and nested objects are not modelled.
    - A JavaScript number is the integer it denotes, [NaN] is [None].
      The identification is exact on the safe-integer range of doubles.
    - A string is the sequence of the bytes of its UTF-8 encoding.
    - A handler runs to completion before the next request starts; a
      handler of the page is taken once the requests it starts have
      settled.
    - A storage statement either raises (the environment's fault plan
      says so, or a constraint fails) and changes nothing, or applies
      fully. *)

From Stdlib Require Import ZArith List String Ascii Bool Lia.
From Stdlib Require Import Permutation Sorted DecimalString DecimalPos.
Import ListNotations.

Local Open Scope string_scope.
Local Open Scope Z_scope.

(** ** JavaScript values *)

Module Js.

(** A field of [req.body] after [express.json()]. *)
Inductive JValue : Type :=
| JUndefined
| JNull
| JBool (b : bool)
| JNum (n : Z)
| JStr (s : string).

(** [ToBoolean], as used by the [!x] tests of the handlers. *)
Definition truthy (v : JValue) : bool :=
  match v with
  | JUndefined => false
  | JNull => false
  | JBool b => b
  | JNum n => negb (n =? 0)%Z
  | JStr s => negb (s =? "")%string
  end.

Definition not (v : JValue) : bool := negb (truthy v).

(** [Number::toString] on an integer. *)
Definition number_to_string (n : Z) : string :=
  NilZero.string_of_int (Z.to_int n).

(** [ToString], applied by [parseInt] to its first argument. *)
Definition ToString (v : JValue) : string :=
  match v with
  | JUndefined => "undefined"
  | JNull => "null"
  | JBool true => "true"
  | JBool false => "false"
  | JNum n => number_to_string n
  | JStr s => s
  end.

(** White space and line terminators that [parseInt] strips, in their
    UTF-8 encodings.  One byte: TAB, LF, VT, FF, CR, SP. *)
Definition is_white_space (c : ascii) : bool :=
  let k := nat_of_ascii c in
  ((9 <=? k)%nat && (k <=? 13)%nat) || (k =? 32)%nat.

(** Two bytes: U+00A0. *)
Definition is_white_space2 (c1 c2 : ascii) : bool :=
  (nat_of_ascii c1 =? 194)%nat && (nat_of_ascii c2 =? 160)%nat.

(** Three bytes: U+1680, U+2000 to U+200A, U+2028, U+2029, U+202F,
    U+205F, U+3000 and U+FEFF. *)
Definition is_white_space3 (c1 c2 c3 : ascii) : bool :=
  let k1 := nat_of_ascii c1 in
  let k2 := nat_of_ascii c2 in
  let k3 := nat_of_ascii c3 in
  ((k1 =? 225) && (k2 =? 154) && (k3 =? 128))%nat
  || ((k1 =? 226) && (k2 =? 128)
      && (((128 <=? k3) && (k3 <=? 138)) || (k3 =? 168) || (k3 =? 169)
          || (k3 =? 175)))%nat
  || ((k1 =? 226) && (k2 =? 129) && (k3 =? 159))%nat
  || ((k1 =? 227) && (k2 =? 128) && (k3 =? 128))%nat
  || ((k1 =? 239) && (k2 =? 187) && (k3 =? 191))%nat.

Fixpoint trim_start (s : string) : string :=
  match s with
  | String c1 r1 =>
      if is_white_space c1 then trim_start r1
      else
        match r1 with
        | String c2 r2 =>
            if is_white_space2 c1 c2 then trim_start r2
            else
              match r2 with
              | String c3 r3 =>
                  if is_white_space3 c1 c2 c3 then trim_start r3 else s
              | EmptyString => s
              end
        | EmptyString => s
        end
  | EmptyString => s
  end.

Definition digit_value (c : ascii) : option Z :=
  let k := nat_of_ascii c in
  if ((48 <=? k)%nat && (k <=? 57)%nat) then Some (Z.of_nat (k - 48)) else None.

(** The longest prefix of decimal digits, read as an integer; [acc] is
    [None] until a first digit has been seen. *)
Fixpoint read_digits (s : string) (acc : option Z) : option Z :=
  match s with
  | String c r =>
      match digit_value c with
      | Some d =>
          read_digits r (Some (10 * match acc with Some a => a | None => 0 end + d))
      | None => acc
      end
  | EmptyString => acc
  end.

(** The sign of the number and what follows the sign character. *)
Definition strip_sign (s : string) : Z * string :=
  match s with
  | String c r =>
      if (c =? "-")%char then (-1, r)
      else if (c =? "+")%char then (1, r)
      else (1, s)
  | EmptyString => (1, s)
  end.

(** [parseInt(s, 10)] on a string: [None] is [NaN]. *)
Definition parseInt_string (s : string) : option Z :=
  let '(sign, s2) := strip_sign (trim_start s) in
  option_map (Z.mul sign) (read_digits s2 None).

(** [parseInt(v, 10)]. *)
Definition parseInt (v : JValue) : option Z := parseInt_string (ToString v).

(** [a.includes(b)] on strings. *)
Fixpoint includes (a b : string) : bool :=
  if String.prefix b a then true
  else match a with
       | String _ r => includes r b
       | EmptyString => false
       end.

(** The first character is a decimal digit. *)
Definition starts_with_digit (s : string) : bool :=
  match s with
  | String c _ =>
      match digit_value c with
      | Some _ => true
      | None => false
      end
  | EmptyString => false
  end.

(** After leading white space and one optional sign comes a decimal
    digit. *)
Definition starts_number (s : string) : bool :=
  starts_with_digit (snd (strip_sign (trim_start s))).

(** [Number.isSafeInteger]: the integers that a JavaScript number holds
    exactly, on which [parseInt] and [Number::toString] are as defined
    here. *)
Definition safe_integer (n : Z) : bool := Z.abs n <=? 9007199254740991.

End Js.

(** ** The SQLite table [student_details] *)

Module Sqlite.

(** A value bound to a [?] of a statement. *)
Inductive SqlValue : Type :=
| SNull
| SInt (n : Z)
| SText (s : string).

(** A row: [id INTEGER PRIMARY KEY AUTOINCREMENT], four [NOT NULL]
    columns, and [created_at TIMESTAMP DEFAULT CURRENT_TIMESTAMP]. *)
Record Student : Type := {
  id : Z;
  name : string;
  email : string;
  age : Z;
  gender : string;
  created_at : string
}.

(** The table and its [sqlite_sequence] entry, the largest key that
    [AUTOINCREMENT] has handed out. *)
Record Db : Type := {
  rows : list Student;
  seq : Z
}.

Definition max_rowid : Z := 9223372036854775807.

(** How the engine reads a TEXT operand that is compared with the
    INTEGER key ([WHERE id = ?] with the route parameter): the integer
    the text is a spelling of, if any.  The engine's rule is not code of
    this repository; the development holds for every such reading. *)
Class TextCoercion : Type := text_as_integer : string -> option Z.

Fixpoint all_digits (s : string) : bool :=
  match s with
  | String c r =>
      match Js.digit_value c with
      | Some _ => all_digits r
      | None => false
      end
  | EmptyString => true
  end.

(** A reading that can be run: an optional sign followed by decimal
    digits and nothing else. *)
Definition decimal_text : TextCoercion :=
  fun s =>
    if all_digits (snd (Js.strip_sign s)) then Js.parseInt_string s else None.

(** How the driver binds a JavaScript value. *)
Definition bind_value (v : Js.JValue) : SqlValue :=
  match v with
  | Js.JUndefined => SNull
  | Js.JNull => SNull
  | Js.JBool b => SInt (if b then 1 else 0)
  | Js.JNum n => SInt n
  | Js.JStr s => SText s
  end.

(** What a TEXT column keeps of a bound value; [None] is NULL. *)
Definition text_column (v : SqlValue) : option string :=
  match v with
  | SNull => None
  | SInt n => Some (Js.number_to_string n)
  | SText s => Some s
  end.

Definition not_null_failed (column : string) : string :=
  "SQLITE_CONSTRAINT: NOT NULL constraint failed: student_details." ++ column.

Definition database_full : string := "SQLITE_FULL: database or disk is full".

(** The four [NOT NULL] columns of a statement, checked in column
    order.  [age] is a JavaScript number: [NaN] is stored as NULL. *)
Definition check_not_null (vname vemail : SqlValue) (vage : option Z)
    (vgender : SqlValue) : string + (string * string * Z * string) :=
  match text_column vname with
  | None => inl (not_null_failed "name")
  | Some n =>
      match text_column vemail with
      | None => inl (not_null_failed "email")
      | Some e =>
          match vage with
          | None => inl (not_null_failed "age")
          | Some a =>
              match text_column vgender with
              | None => inl (not_null_failed "gender")
              | Some g => inr (n, e, a, g)
              end
          end
      end
  end.

Definition largest_id (l : list Student) : Z :=
  fold_right (fun r m => Z.max (id r) m) 0 l.

(** [INSERT INTO student_details (name, email, age, gender) VALUES (?, ?, ?, ?)];
    the result is the new table and [lastID]. *)
Definition insert (vname vemail : SqlValue) (vage : option Z)
    (vgender : SqlValue) (now : string) (d : Db) : string + (Db * Z) :=
  let top := Z.max (seq d) (largest_id (rows d)) in
  if max_rowid <=? top then inl database_full
  else
    match check_not_null vname vemail vage vgender with
    | inl e => inl e
    | inr (n, e, a, g) =>
        let i := top + 1 in
        let r := {| id := i; name := n; email := e; age := a; gender := g;
                    created_at := now |} in
        inr ({| rows := (rows d ++ [r])%list; seq := i |}, i)
    end.

Section Queries.
Context {coercion : TextCoercion}.

(** [id = ?] *)
Definition id_matches (v : SqlValue) (r : Student) : bool :=
  match v with
  | SNull => false
  | SInt n => id r =? n
  | SText s =>
      match text_as_integer s with
      | Some n => id r =? n
      | None => false
      end
  end.

(** [SELECT * FROM student_details WHERE id = ?], first row. *)
Definition select_by_id (v : SqlValue) (d : Db) : option Student :=
  find (id_matches v) (rows d).

(** What the UPDATE statement makes of a row: the four columns are
    overwritten where [id = ?] holds. *)
Definition overwrite (vid : SqlValue) (n e : string) (a : Z) (g : string)
    (r : Student) : Student :=
  if id_matches vid r
  then {| id := id r; name := n; email := e; age := a; gender := g;
          created_at := created_at r |}
  else r.

(** [UPDATE student_details SET name = ?, email = ?, age = ?, gender = ? WHERE id = ?];
    the result is the new table and [changes]. *)
Definition update (vname vemail : SqlValue) (vage : option Z)
    (vgender vid : SqlValue) (d : Db) : string + (Db * Z) :=
  let hits := filter (id_matches vid) (rows d) in
  match hits with
  | [] => inr (d, 0)
  | _ :: _ =>
      match check_not_null vname vemail vage vgender with
      | inl e => inl e
      | inr (n, e, a, g) =>
          inr ({| rows := map (overwrite vid n e a g) (rows d); seq := seq d |},
               Z.of_nat (List.length hits))
      end
  end.

(** [DELETE FROM student_details WHERE id = ?] *)
Definition delete (vid : SqlValue) (d : Db) : Db :=
  {| rows := filter (fun r => negb (id_matches vid r)) (rows d); seq := seq d |}.

(** The table after one request: a handler sends at most one statement
    that writes. *)
Inductive statement_effect (d : Db) : Db -> Prop :=
| effect_none : statement_effect d d
| effect_insert vn ve va vg t d' i :
    insert vn ve va vg t d = inr (d', i) -> statement_effect d d'
| effect_update vn ve va vg vid d' c :
    update vn ve va vg vid d = inr (d', c) -> statement_effect d d'
| effect_delete vid : statement_effect d (delete vid d).

End Queries.

Fixpoint insert_desc (r : Student) (l : list Student) : list Student :=
  match l with
  | [] => [r]
  | x :: t => if id x <=? id r then r :: l else x :: insert_desc r t
  end.

(** [SELECT * FROM student_details ORDER BY id DESC] *)
Definition select_all_desc (d : Db) : list Student :=
  fold_right insert_desc [] (rows d).

End Sqlite.

(** ** The HTTP handlers *)

Module Server.
Import Js Sqlite.

(** [const { name, email, age, gender } = req.body] *)
Record ReqBody : Type := {
  body_name : JValue;
  body_email : JValue;
  body_age : JValue;
  body_gender : JValue
}.

Inductive Json : Type :=
| JsonStudent (s : Student)
| JsonStudents (l : list Student)
| JsonError (error message : string)
| JsonUndefined.

Record Response : Type := {
  status : Z;
  body : Json
}.

(** The statements a handler sends through the [db] handle. *)
Inductive Statement : Type :=
| InsertStudent (vname vemail : SqlValue) (vage : option Z) (vgender : SqlValue)
| SelectStudent (vid : SqlValue)
| SelectStudents
| UpdateStudent (vname vemail : SqlValue) (vage : option Z) (vgender vid : SqlValue)
| DeleteStudent (vid : SqlValue).

(** The process: the database behind [db], what [console.error] has
    printed (label and [err.message]), and the statements sent so far. *)
Record Server : Type := {
  db : Db;
  console : list (string * string);
  issued : list Statement
}.

(** What a request meets: the clock, and for each storage call of the
    handler in turn whether the engine raises ([Some message]) before
    running it.  A plan that is too short raises nothing further. *)
Record Env : Type := {
  now : string;
  faults : list (option string)
}.

(** Handler code: state passing with exceptions; what was done before
    a [throw] stays done. *)
Definition M (A : Type) : Type := Server * Env -> (string + A) * (Server * Env).

Definition ret {A} (a : A) : M A := fun c => (inr a, c).

Definition bind {A B} (m : M A) (k : A -> M B) : M B :=
  fun c =>
    match m c with
    | (inl e, c1) => (inl e, c1)
    | (inr a, c1) => k a c1
    end.

Definition try_catch {A} (m : M A) (h : string -> M A) : M A :=
  fun c =>
    match m c with
    | (inl e, c1) => h e c1
    | (inr a, c1) => (inr a, c1)
    end.

Notation "x <- m ;; k" := (bind m (fun x => k))
  (at level 61, m at next level, right associativity).
Notation "m ;;; k" := (bind m (fun _ => k))
  (at level 61, right associativity).

Definition console_error (label err : string) : M unit :=
  fun '(s, e) =>
    (inr tt,
     ({| db := db s; console := (console s ++ [(label, err)])%list;
         issued := issued s |}, e)).

(** The statement [q] has been sent. *)
Definition sent (q : Statement) (s : Server) : Server :=
  {| db := db s; console := console s; issued := (issued s ++ [q])%list |}.

Definition with_db (d : Db) (s : Server) : Server :=
  {| db := d; console := console s; issued := issued s |}.

(** One entry of the fault plan has been used. *)
Definition advance (e : Env) : Env :=
  {| now := now e; faults := tl (faults e) |}.

(** One [await db.run/get/all(...)]: the statement is sent; the engine
    raises if the plan says so, else runs it on the table. *)
Definition storage {A} (q : Statement)
    (exec : string -> Db -> string + (Db * A)) : M A :=
  fun '(s, e) =>
    match faults e with
    | Some msg :: _ => (inl msg, (sent q s, advance e))
    | _ =>
        match exec (now e) (db s) with
        | inl msg => (inl msg, (sent q s, advance e))
        | inr (d, a) => (inr a, (with_db d (sent q s), advance e))
        end
    end.

Definition res_json (code : Z) (j : Json) : Response :=
  {| status := code; body := j |}.

Definition json_student (s : option Student) : Json :=
  match s with
  | Some r => JsonStudent r
  | None => JsonUndefined
  end.

Definition bad_request : Response :=
  res_json 400
    (JsonError "Bad Request" "All fields (name, email, age, gender) are required").

Definition not_found (id : string) : Response :=
  res_json 404
    (JsonError "Not Found" ("Student with ID " ++ id ++ " not found")).

Definition internal_error (what detail : string) : Response :=
  res_json 500 (JsonError "Internal Server Error" (what ++ detail)).

(** The process once [initializeDatabase] has created the table in a
    new database file. *)
Definition start : Server :=
  {| db := {| rows := []; seq := 0 |}; console := []; issued := [] |}.

(** The engine raises nothing of its own accord during the request. *)
Definition healthy (e : Env) : bool :=
  forallb (fun f => match f with None => true | Some _ => false end) (faults e).


(** A field that [!x] takes as missing. *)
Definition missing (v : JValue) : Prop :=
  v = JUndefined \/ v = JNull \/ v = JStr "".

(** The id of the record a [201] response carries. *)
Definition created_id (r : Response) : option Z :=
  match status r, body r with
  | 201, JsonStudent s => Some (id s)
  | _, _ => None
  end.

Inductive Request : Type :=
| POST_students (b : ReqBody)
| GET_students
| GET_student (id : string)
| PUT_student (id : string) (b : ReqBody)
| DELETE_student (id : string).

(** All four fields pass the [!x] tests. *)
Definition present (b : ReqBody) : bool :=
  truthy (body_name b) && truthy (body_email b)
  && truthy (body_age b) && truthy (body_gender b).

(** The request gets past the presence test of its route, if any. *)
Definition passes_validation (r : Request) : bool :=
  match r with
  | POST_students b => present b
  | PUT_student _ b => present b
  | _ => true
  end.

(** What the [catch] block of each route puts before [err.message] in
    the response, and what it prints before [err] on the console. *)
Definition failure_message (r : Request) : string :=
  match r with
  | POST_students _ => "Failed to add student: "
  | GET_students => "Failed to retrieve students: "
  | GET_student _ => "Failed to retrieve student: "
  | PUT_student _ _ => "Failed to update student: "
  | DELETE_student _ => "Failed to delete student: "
  end.

Definition failure_label (r : Request) : string :=
  match r with
  | POST_students _ => "Error adding student:"
  | GET_students => "Error fetching students:"
  | GET_student id => "Error fetching student " ++ id ++ ":"
  | PUT_student id _ => "Error updating student " ++ id ++ ":"
  | DELETE_student id => "Error deleting student " ++ id ++ ":"
  end.

(** Ids strictly decrease along the list. *)
Definition strictly_descending (l : list Student) : Prop :=
  StronglySorted (fun a b => id b < id a) l.

Section Handlers.
Context {coercion : TextCoercion}.

Definition db_run_insert (vname vemail : JValue) (vage : option Z)
    (vgender : JValue) : M Z :=
  let n := bind_value vname in
  let e := bind_value vemail in
  let g := bind_value vgender in
  storage (InsertStudent n e vage g) (fun t d => insert n e vage g t d).

Definition db_get (vid : SqlValue) : M (option Student) :=
  storage (SelectStudent vid) (fun _ d => inr (d, select_by_id vid d)).

Definition db_all : M (list Student) :=
  storage SelectStudents (fun _ d => inr (d, select_all_desc d)).

Definition db_run_update (vname vemail : JValue) (vage : option Z)
    (vgender : JValue) (id : string) : M Z :=
  let n := bind_value vname in
  let e := bind_value vemail in
  let g := bind_value vgender in
  storage (UpdateStudent n e vage g (SText id))
    (fun _ d => update n e vage g (SText id) d).

Definition db_run_delete (id : string) : M unit :=
  storage (DeleteStudent (SText id)) (fun _ d => inr (delete (SText id) d, tt)).

(** [app.post('/students', ...)] *)
Definition post_students (b : ReqBody) : M Response :=
  if Js.not (body_name b) || Js.not (body_email b)
     || Js.not (body_age b) || Js.not (body_gender b)
  then ret bad_request
  else
    try_catch
      (lastID <- db_run_insert (body_name b) (body_email b)
                   (parseInt (body_age b)) (body_gender b) ;;
       student <- db_get (SInt lastID) ;;
       ret (res_json 201 (json_student student)))
      (fun err =>
         console_error "Error adding student:" err ;;;
         ret (internal_error "Failed to add student: " err)).

(** [app.get('/students', ...)] *)
Definition get_students : M Response :=
  try_catch
    (students <- db_all ;;
     ret (res_json 200 (JsonStudents students)))
    (fun err =>
       console_error "Error fetching students:" err ;;;
       ret (internal_error "Failed to retrieve students: " err)).

(** [app.get('/students/:id', ...)] *)
Definition get_student (id : string) : M Response :=
  try_catch
    (student <- db_get (SText id) ;;
     match student with
     | None => ret (not_found id)
     | Some r => ret (res_json 200 (JsonStudent r))
     end)
    (fun err =>
       console_error ("Error fetching student " ++ id ++ ":") err ;;;
       ret (internal_error "Failed to retrieve student: " err)).

(** [app.put('/students/:id', ...)] *)
Definition put_student (id : string) (b : ReqBody) : M Response :=
  if Js.not (body_name b) || Js.not (body_email b)
     || Js.not (body_age b) || Js.not (body_gender b)
  then ret bad_request
  else
    try_catch
      (changes <- db_run_update (body_name b) (body_email b)
                    (parseInt (body_age b)) (body_gender b) id ;;
       if changes =? 0 then ret (not_found id)
       else
         student <- db_get (SText id) ;;
         ret (res_json 200 (json_student student)))
      (fun err =>
         console_error ("Error updating student " ++ id ++ ":") err ;;;
         ret (internal_error "Failed to update student: " err)).

(** [app.delete('/students/:id', ...)] *)
Definition delete_student (id : string) : M Response :=
  try_catch
    (student <- db_get (SText id) ;;
     match student with
     | None => ret (not_found id)
     | Some r =>
         db_run_delete id ;;;
         ret (res_json 200 (JsonStudent r))
     end)
    (fun err =>
       console_error ("Error deleting student " ++ id ++ ":") err ;;;
       ret (internal_error "Failed to delete student: " err)).

Definition route (r : Request) : M Response :=
  match r with
  | POST_students b => post_students b
  | GET_students => get_students
  | GET_student id => get_student id
  | PUT_student id b => put_student id b
  | DELETE_student id => delete_student id
  end.

(** One request served: the response sent and the process afterwards.
    An error that escapes a handler reaches the global error handler. *)
Definition serve (r : Request) (e : Env) (s : Server) : Response * Server :=
  match route r (s, e) with
  | (inr resp, (s1, _)) => (resp, s1)
  | (inl err, (s1, e1)) =>
      (res_json 500
         (JsonError "Internal Server Error" "An unexpected error occurred"),
       fst (snd (console_error "Unhandled error:" err (s1, e1))))
  end.

(** Requests served one after the other. *)
Fixpoint serve_all (l : list (Request * Env)) (s : Server) : Server :=
  match l with
  | [] => s
  | (r, e) :: t => serve_all t (snd (serve r e s))
  end.

(** The states the process can be in. *)
Inductive reachable : Server -> Prop :=
| reachable_start : reachable start
| reachable_serve r e s : reachable s -> reachable (snd (serve r e s)).

End Handlers.

End Server.

(** ** The health check *)

Module Health.
Import Js Sqlite Server.

(** The two bodies of [/health]: [{status: 'ok', timestamp, studentCount}]
    and [{status: 'error', message}]. *)
Inductive HealthJson : Type :=
| HealthOk (timestamp : string) (studentCount : Z)
| HealthError (message : string).

Record HealthResponse : Type := {
  health_status : Z;
  health_body : HealthJson
}.

(** [db.get] of the [SELECT COUNT] of [student_details]: the
    engine raises if the plan says so, else counts the rows.  The
    statement reads only; [issued] lists the statements of the
    [/students] routes and is left alone. *)
Definition db_get_count : M Z :=
  fun '(s, e) =>
    match faults e with
    | Some msg :: _ => (inl msg, (s, advance e))
    | _ => (inr (Z.of_nat (List.length (rows (db s)))), (s, advance e))
    end.

(** [app.get('/health', ...)]; [iso] is [new Date().toISOString()]. *)
Definition get_health (iso : string) : M HealthResponse :=
  try_catch
    (count <- db_get_count ;;
     ret {| health_status := 200; health_body := HealthOk iso count |})
    (fun err =>
       ret {| health_status := 500; health_body := HealthError err |}).

End Health.

(** ** Starting the process *)

Module Startup.
Import Js Sqlite Server.

(** [initializeDatabase()], then [app.listen]: [file] is the table that
    [students.db] holds when the process starts, if it holds one; the
    first two entries of the fault plan are for [open] and for
    [db.exec(CREATE TABLE IF NOT EXISTS ...)].  On an error the function
    prints it with [console.error] and the process exits ([inl], with the
    line printed); otherwise the process listens, on the table of the
    file or on a new empty one. *)
Definition initializeDatabase (file : option Db) (e : Env)
    : (string * string) + Server :=
  match faults e with
  | Some err :: _ => inl ("❌ Database initialization error:", err)
  | _ =>
      match faults (advance e) with
      | Some err :: _ => inl ("❌ Database initialization error:", err)
      | _ =>
          inr {| db := match file with
                       | Some d => d
                       | None => {| rows := []; seq := 0 |}
                       end;
                 console := [];
                 issued := [] |}
      end
  end.

Section Lifetime.
Context {coercion : TextCoercion}.

(** [later s s']: the process in state [s] can come to state [s'], by
    serving requests and by being stopped and started again on its
    database file. *)
Inductive later (s : Server) : Server -> Prop :=
| later_now : later s s
| later_serve r e s1 : later s s1 -> later s (snd (serve r e s1))
| later_restart e s1 s2 :
    later s s1 -> initializeDatabase (Some (db s1)) e = inr s2 -> later s s2.

(** The states of a deployment that began on a new database file. *)
Definition deployed (s : Server) : Prop :=
  exists e s0, initializeDatabase None e = inr s0 /\ later s0 s.

End Lifetime.

End Startup.

(** ** The single-page client *)

Module Client.
Import Js Sqlite Server.

(** The state of the [App] component, [useState] by [useState], and the
    labels that the component has printed with [console.error]. *)
Record Page : Type := {
  students : Json;
  form : ReqBody;
  editId : option Z;
  isLoading : bool;
  error : option string;
  printed : list string
}.

(** [{ name: '', email: '', age: '', gender: '' }] *)
Definition empty_form : ReqBody :=
  {| body_name := JStr ""; body_email := JStr "";
     body_age := JStr ""; body_gender := JStr "" |}.

(** The component when it is first rendered. *)
Definition first_render : Page :=
  {| students := JsonStudents []; form := empty_form; editId := None;
     isLoading := false; error := None; printed := [] |}.

Definition setStudents (v : Json) (p : Page) : Page :=
  {| students := v; form := form p; editId := editId p;
     isLoading := isLoading p; error := error p; printed := printed p |}.

Definition setForm (v : ReqBody) (p : Page) : Page :=
  {| students := students p; form := v; editId := editId p;
     isLoading := isLoading p; error := error p; printed := printed p |}.

Definition setEditId (v : option Z) (p : Page) : Page :=
  {| students := students p; form := form p; editId := v;
     isLoading := isLoading p; error := error p; printed := printed p |}.

Definition setIsLoading (v : bool) (p : Page) : Page :=
  {| students := students p; form := form p; editId := editId p;
     isLoading := v; error := error p; printed := printed p |}.

Definition setError (v : option string) (p : Page) : Page :=
  {| students := students p; form := form p; editId := editId p;
     isLoading := isLoading p; error := v; printed := printed p |}.

Definition console_error (label : string) (p : Page) : Page :=
  {| students := students p; form := form p; editId := editId p;
     isLoading := isLoading p; error := error p;
     printed := (printed p ++ [label])%list |}.

(** What a request of the client meets: whether it gets to the server
    and back at all, and what the server's engine does meanwhile. *)
Record Net : Type := {
  online : bool;
  engine : Env
}.

(** [if (editId)]: [null] and [0] are falsy. *)
Definition editing (p : Page) : bool :=
  match editId p with
  | Some i => negb (i =? 0)
  | None => false
  end.

(** The request that [handleSubmit] sends: an update of the record
    being edited, else a create. *)
Definition submit_request (p : Page) : Request :=
  match editId p with
  | Some i =>
      if negb (i =? 0) then PUT_student (number_to_string i) (form p)
      else POST_students (form p)
  | None => POST_students (form p)
  end.

(** The banner texts. *)
Definition fetch_failed : string := "Failed to fetch students. Please try again.".

Definition submit_failed (p : Page) : string :=
  "Failed to " ++ (if editing p then "update" else "add")
  ++ " student. Please try again.".

Definition delete_failed : string := "Failed to delete student. Please try again.".

Section Handlers.
Context {coercion : TextCoercion}.

(** [await axios.get/post/put/delete(...)]: the promise resolves with
    [res.data] when the status is 2xx and rejects otherwise, or when the
    request does not get through. *)
Definition axios (r : Request) (n : Net) (srv : Server) : option Json * Server :=
  if online n then
    let resp := serve r (engine n) srv in
    (if (200 <=? status (fst resp)) && (status (fst resp) <? 300)
     then Some (body (fst resp)) else None,
     snd resp)
  else (None, srv).

(** [fetchStudents], once its request has settled. *)
Definition fetchStudents (n : Net) (w : Page * Server) : Page * Server :=
  let p1 := setError None (setIsLoading true (fst w)) in
  match axios GET_students n (snd w) with
  | (Some data, srv) => (setIsLoading false (setStudents data p1), srv)
  | (None, srv) =>
      (setIsLoading false
         (console_error "Error fetching students:"
            (setError (Some fetch_failed) p1)), srv)
  end.

(** [handleSubmit], once its request and the listing it starts have
    settled; [n1] is for the create or update, [n2] for the listing. *)
Definition handleSubmit (n1 n2 : Net) (w : Page * Server) : Page * Server :=
  let p := fst w in
  let p1 := setError None (setIsLoading true p) in
  match axios (submit_request p) n1 (snd w) with
  | (Some _, srv) =>
      let w2 := fetchStudents n2 (setEditId None (setForm empty_form p1), srv) in
      (setIsLoading false (fst w2), snd w2)
  | (None, srv) =>
      (setIsLoading false
         (console_error
            ("Error " ++ (if editing p then "updating" else "adding") ++ " student:")
            (setError (Some (submit_failed p)) p1)), srv)
  end.

(** [handleEdit(student)] *)
Definition handleEdit (student : Student) (p : Page) : Page :=
  setEditId (Some (id student))
    (setForm {| body_name := JStr (name student);
                body_email := JStr (email student);
                body_age := JNum (age student);
                body_gender := JStr (gender student) |} p).

(** [handleDelete(id)]; [confirmed] is the answer to [window.confirm]. *)
Definition handleDelete (i : Z) (confirmed : bool) (n1 n2 : Net)
    (w : Page * Server) : Page * Server :=
  if confirmed then
    let p1 := setError None (setIsLoading true (fst w)) in
    match axios (DELETE_student (number_to_string i)) n1 (snd w) with
    | (Some _, srv) =>
        let w2 := fetchStudents n2 (p1, srv) in
        (setIsLoading false (fst w2), snd w2)
    | (None, srv) =>
        (setIsLoading false
           (console_error "Error deleting student:"
              (setError (Some delete_failed) p1)), srv)
    end
  else w.

(** [handleCancel] *)
Definition handleCancel (p : Page) : Page :=
  setEditId None (setForm empty_form p).

(** What the user can do on the page. *)
Inductive Action : Type :=
| Load (n : Net)
| TypeName (v : string)
| TypeEmail (v : string)
| TypeAge (v : string)
| PickGender (v : string)
| Submit (n1 n2 : Net)
| Edit (student : Student)
| Delete (i : Z) (confirmed : bool) (n1 n2 : Net)
| Cancel.

(** The [onChange] of each input, the buttons, and the [useEffect] that
    loads the list when the component is mounted.  The checks that the
    browser makes on the inputs before it lets a form be submitted are
    not part of the component's code: [Submit] may find any form. *)
Definition perform (a : Action) (w : Page * Server) : Page * Server :=
  let p := fst w in
  match a with
  | Load n => fetchStudents n w
  | TypeName v =>
      (setForm {| body_name := JStr v; body_email := body_email (form p);
                  body_age := body_age (form p);
                  body_gender := body_gender (form p) |} p, snd w)
  | TypeEmail v =>
      (setForm {| body_name := body_name (form p); body_email := JStr v;
                  body_age := body_age (form p);
                  body_gender := body_gender (form p) |} p, snd w)
  | TypeAge v =>
      (setForm {| body_name := body_name (form p);
                  body_email := body_email (form p); body_age := JStr v;
                  body_gender := body_gender (form p) |} p, snd w)
  | PickGender v =>
      (setForm {| body_name := body_name (form p);
                  body_email := body_email (form p);
                  body_age := body_age (form p); body_gender := JStr v |} p,
       snd w)
  | Submit n1 n2 => handleSubmit n1 n2 w
  | Edit student => (handleEdit student p, snd w)
  | Delete i confirmed n1 n2 => handleDelete i confirmed n1 n2 w
  | Cancel => (handleCancel p, snd w)
  end.

End Handlers.

(** Every request of the action gets through and meets a healthy
    engine. *)
Definition calm_net (n : Net) : bool := online n && healthy (engine n).

Definition calm_action (a : Action) : bool :=
  match a with
  | Load n => calm_net n
  | Submit n1 n2 => calm_net n1 && calm_net n2
  | Delete _ _ n1 n2 => calm_net n1 && calm_net n2
  | _ => true
  end.

(** The banner shows nothing or one of the fixed texts. *)
Definition generic_banner (p : Page) : Prop :=
  error p = None \/
  error p = Some fetch_failed \/
  error p = Some "Failed to add student. Please try again." \/
  error p = Some "Failed to update student. Please try again." \/
  error p = Some delete_failed.

(** The list on the page is the listing of the table as it is now. *)
Definition in_sync (w : Page * Server) : Prop :=
  students (fst w) = JsonStudents (select_all_desc (db (snd w))).

End Client.

(** ** Requests and states to run the handlers on *)

Module Sample.
Import Js Sqlite Server.

Definition clock : string := "2024-01-01 00:00:00".

(** Nothing goes wrong in the engine. *)
Definition calm : Env := {| now := clock; faults := [] |}.

(** The second storage call of the request raises. *)
Definition busy_on_second : Env :=
  {| now := clock; faults := [None; Some "SQLITE_BUSY: database is locked"] |}.

Definition ana : ReqBody :=
  {| body_name := JStr "Ana"; body_email := JStr "a@x.com";
     body_age := JStr "21"; body_gender := JStr "Female" |}.

Definition ana_b : ReqBody :=
  {| body_name := JStr "Ana B"; body_email := JStr "a@x.com";
     body_age := JStr "22"; body_gender := JStr "Female" |}.

Definition with_age (v : JValue) : ReqBody :=
  {| body_name := JStr "Ana B"; body_email := JStr "a@x.com";
     body_age := v; body_gender := JStr "Female" |}.

Definition no_email : ReqBody :=
  {| body_name := JStr "Ana"; body_email := JUndefined;
     body_age := JStr "21"; body_gender := JStr "Female" |}.

Definition ana_row : Student :=
  {| id := 1; name := "Ana"; email := "a@x.com"; age := 21; gender := "Female";
     created_at := clock |}.

(** The process after [POST /students] of [ana] on a new database. *)
Definition one_student : Server :=
  snd (@serve decimal_text (POST_students ana) calm start).

(** ... and after a second create. *)
Definition two_students : Server :=
  snd (@serve decimal_text (POST_students ana_b) calm one_student).

(** The first storage call of the request raises. *)
Definition io_error : Env :=
  {| now := clock; faults := [Some "SQLITE_IOERR: disk I/O error"] |}.

(** A request of the client that gets through to a healthy engine, and
    one that does not get through. *)
Definition wire : Client.Net :=
  {| Client.online := true; Client.engine := calm |}.

Definition unplugged : Client.Net :=
  {| Client.online := false; Client.engine := calm |}.

(** The page with [ana] typed into the form. *)
Definition ana_typed : Client.Page := Client.setForm ana Client.first_render.

(** A record whose age is 0. *)
Definition newborn : Student :=
  {| id := 2; name := "Bo"; email := "b@x.com"; age := 0; gender := "Other";
     created_at := clock |}.

(** [ana_row] after the update [ana_b], and the row that a create of
    [ana_b] adds after it. *)
Definition updated_row : Student :=
  {| id := 1; name := "Ana B"; email := "a@x.com"; age := 22; gender := "Female";
     created_at := clock |}.

Definition second_row : Student :=
  {| id := 2; name := "Ana B"; email := "a@x.com"; age := 22; gender := "Female";
     created_at := clock |}.

End Sample.

(** * Properties of the handlers *)

Import Js Sqlite Server.

Section Properties.
Context {coercion : TextCoercion}.

(** ** [parseInt] reads back what [Number::toString] prints *)

Lemma read_digits_step (c : ascii) (r : string) (a d : Z) :
  digit_value c = Some d ->
  read_digits (String c r) (Some a) = read_digits r (Some (10 * a + d)).
Proof. intros H. simpl. rewrite H. reflexivity. Qed.

Lemma read_digits_acc (u : Decimal.uint) (p : positive) :
  read_digits (NilEmpty.string_of_uint u) (Some (Z.pos p)) =
  Some (Z.pos (Pos.of_uint_acc u p)).
Proof.
  revert p.
  induction u; intros p; cbn [NilEmpty.string_of_uint Pos.of_uint_acc];
    try reflexivity;
    erewrite read_digits_step by reflexivity;
    rewrite <- IHu; f_equal; f_equal;
    match goal with
    | |- context [Z.of_nat ?k] =>
        let v := eval vm_compute in (Z.of_nat k) in change (Z.of_nat k) with v
    end; lia.
Qed.

Lemma read_digits_from_zero (u : Decimal.uint) :
  read_digits (NilEmpty.string_of_uint u) (Some 0) = Some (Z.of_N (Pos.of_uint u)).
Proof.
  induction u; cbn [NilEmpty.string_of_uint Pos.of_uint]; try reflexivity;
    erewrite read_digits_step by reflexivity;
    first [exact IHu | apply read_digits_acc].
Qed.

Lemma read_digits_uint (u : Decimal.uint) :
  u <> Decimal.Nil ->
  read_digits (NilEmpty.string_of_uint u) None = Some (Z.of_N (Pos.of_uint u)).
Proof.
  intros N. rewrite <- read_digits_from_zero.
  destruct u; [contradiction | ..]; reflexivity.
Qed.

Lemma trim_start_plain (c : ascii) (r : string) :
  (33 <= nat_of_ascii c < 128)%nat -> trim_start (String c r) = String c r.
Proof.
  intros H. simpl.
  assert (W1 : is_white_space c = false).
  { unfold is_white_space.
    destruct (Nat.leb_spec 9 (nat_of_ascii c)), (Nat.leb_spec (nat_of_ascii c) 13),
      (Nat.eqb_spec (nat_of_ascii c) 32); simpl; try reflexivity; lia. }
  rewrite W1. destruct r as [| c2 r2]; [reflexivity |].
  assert (W2 : is_white_space2 c c2 = false).
  { unfold is_white_space2.
    destruct (Nat.eqb_spec (nat_of_ascii c) 194); [lia | reflexivity]. }
  rewrite W2. destruct r2 as [| c3 r3]; [reflexivity |].
  assert (W3 : is_white_space3 c c2 c3 = false).
  { unfold is_white_space3.
    destruct (Nat.eqb_spec (nat_of_ascii c) 225); [lia |].
    destruct (Nat.eqb_spec (nat_of_ascii c) 226); [lia |].
    destruct (Nat.eqb_spec (nat_of_ascii c) 227); [lia |].
    destruct (Nat.eqb_spec (nat_of_ascii c) 239); [lia | reflexivity]. }
  rewrite W3. reflexivity.
Qed.

Lemma parseInt_printed_uint (u : Decimal.uint) :
  u <> Decimal.Nil ->
  parseInt_string (NilEmpty.string_of_uint u) = Some (Z.of_N (Pos.of_uint u)) /\
  parseInt_string (String "-" (NilEmpty.string_of_uint u))
  = Some (- Z.of_N (Pos.of_uint u)).
Proof.
  intros N. pose proof (read_digits_uint u N) as R. split.
  - unfold parseInt_string.
    destruct u; [contradiction | ..]; simpl NilEmpty.string_of_uint in *;
      rewrite trim_start_plain by (split; [apply Nat.leb_le | apply Nat.ltb_lt]; reflexivity);
      simpl strip_sign; cbv iota beta; rewrite R; simpl option_map; f_equal;
      destruct (Z.of_N _); reflexivity.
  - unfold parseInt_string. rewrite trim_start_plain by (split; [apply Nat.leb_le | apply Nat.ltb_lt]; reflexivity).
    simpl strip_sign. cbv iota beta. rewrite R. reflexivity.
Qed.

(** An age sent as a JSON number, as the client does when a record is
    edited without touching the age, is coerced to itself. *)
Lemma parseInt_number (n : Z) : parseInt (JNum n) = Some n.
Proof.
  unfold parseInt, ToString, number_to_string.
  destruct n as [| p | p]; [reflexivity | ..]; simpl Z.to_int;
    unfold NilZero.string_of_int, NilZero.string_of_uint;
    pose proof (Unsigned.to_uint_nonnil p) as N;
    destruct (parseInt_printed_uint _ N) as [Hp Hn];
    pose proof (DecimalPos.Unsigned.of_to p) as V; rewrite V in Hp, Hn;
    destruct (Pos.to_uint p) eqn:U; try contradiction;
    first [exact Hp | exact Hn].
Qed.

Lemma read_digits_stops (rest : string) (acc : option Z) :
  starts_with_digit rest = false -> read_digits rest acc = acc.
Proof.
  destruct rest as [| c r]; simpl; [reflexivity |].
  destruct (digit_value c); [discriminate | reflexivity].
Qed.

Lemma read_digits_suffix (u : Decimal.uint) (rest : string) (a : Z) :
  starts_with_digit rest = false ->
  read_digits (NilEmpty.string_of_uint u ++ rest) (Some a) =
  read_digits (NilEmpty.string_of_uint u) (Some a).
Proof.
  intros R. revert a.
  induction u; intros a; cbn [NilEmpty.string_of_uint String.append];
    try (apply read_digits_stops; exact R);
    erewrite !read_digits_step by reflexivity; apply IHu.
Qed.

Lemma read_digits_uint_suffix (u : Decimal.uint) (rest : string) :
  u <> Decimal.Nil ->
  starts_with_digit rest = false ->
  read_digits (NilEmpty.string_of_uint u ++ rest) None =
  read_digits (NilEmpty.string_of_uint u) None.
Proof.
  intros N R.
  destruct u; [contradiction | ..]; cbn [NilEmpty.string_of_uint String.append];
    cbn [read_digits];
    match goal with
    | |- context [digit_value ?c] =>
        let v := eval vm_compute in (digit_value c) in
        change (digit_value c) with v
    end; cbv iota beta; apply read_digits_suffix; exact R.
Qed.

Lemma parseInt_uint_suffix (u : Decimal.uint) (rest : string) :
  u <> Decimal.Nil ->
  starts_with_digit rest = false ->
  parseInt_string (NilEmpty.string_of_uint u ++ rest)
  = parseInt_string (NilEmpty.string_of_uint u) /\
  parseInt_string (String "-" (NilEmpty.string_of_uint u ++ rest))
  = parseInt_string (String "-" (NilEmpty.string_of_uint u)).
Proof.
  intros N R. pose proof (read_digits_uint_suffix u rest N R) as D. split.
  - unfold parseInt_string.
    destruct u; [contradiction | ..];
      cbn [NilEmpty.string_of_uint String.append] in *;
      rewrite !trim_start_plain
        by (split; [apply Nat.leb_le | apply Nat.ltb_lt]; reflexivity);
      simpl strip_sign; cbv iota beta; rewrite D; reflexivity.
  - unfold parseInt_string.
    rewrite !trim_start_plain
      by (split; [apply Nat.leb_le | apply Nat.ltb_lt]; reflexivity).
    simpl strip_sign. cbv iota beta. rewrite D. reflexivity.
Qed.

Lemma parseInt_number_suffix (k : Z) (rest : string) :
  starts_with_digit rest = false ->
  parseInt (JStr (number_to_string k ++ rest)) = Some k.
Proof.
  intros R. rewrite <- (parseInt_number k).
  unfold parseInt, ToString, number_to_string.
  destruct k as [| p | p]; simpl Z.to_int;
    unfold NilZero.string_of_int, NilZero.string_of_uint.
  - assert (N : Decimal.D0 Decimal.Nil <> Decimal.Nil) by discriminate.
    destruct (parseInt_uint_suffix _ rest N R) as [Hp _]. exact Hp.
  - pose proof (Unsigned.to_uint_nonnil p) as N.
    destruct (parseInt_uint_suffix _ rest N R) as [Hp _].
    destruct (Pos.to_uint p) eqn:U; try contradiction; exact Hp.
  - pose proof (Unsigned.to_uint_nonnil p) as N.
    destruct (parseInt_uint_suffix _ rest N R) as [_ Hn].
    destruct (Pos.to_uint p) eqn:U; try contradiction; exact Hn.
Qed.

(** ** The field presence test *)

Lemma validation_test (b : ReqBody) :
  Js.not (body_name b) || Js.not (body_email b)
  || Js.not (body_age b) || Js.not (body_gender b) = negb (present b).
Proof.
  unfold present, Js.not.
  destruct (truthy (body_name b)), (truthy (body_email b)),
    (truthy (body_age b)), (truthy (body_gender b)); reflexivity.
Qed.

Lemma missing_not_truthy (v : JValue) : missing v -> truthy v = false.
Proof. intros [-> | [-> | ->]]; reflexivity. Qed.

Lemma present_fields (b : ReqBody) :
  present b = true ->
  truthy (body_name b) = true /\ truthy (body_email b) = true /\
  truthy (body_age b) = true /\ truthy (body_gender b) = true.
Proof.
  unfold present. intros H.
  repeat (apply andb_true_iff in H; destruct H as [H ?]). auto.
Qed.

Lemma post_rejected (b : ReqBody) (e : Env) (s : Server) :
  present b = false -> serve (POST_students b) e s = (bad_request, s).
Proof.
  intros H. unfold serve, route, post_students.
  rewrite validation_test, H. reflexivity.
Qed.

Lemma put_rejected (i : string) (b : ReqBody) (e : Env) (s : Server) :
  present b = false -> serve (PUT_student i b) e s = (bad_request, s).
Proof.
  intros H. unfold serve, route, put_student.
  rewrite validation_test, H. reflexivity.
Qed.

(** ** Storage calls in a healthy environment *)

Lemma healthy_advance (e : Env) : healthy e = true -> healthy (advance e) = true.
Proof.
  unfold healthy, advance. simpl. destruct (faults e) as [| f t]; simpl; auto.
  intros H. apply andb_true_iff in H. tauto.
Qed.

Lemma storage_healthy {A} (q : Statement)
    (exec : string -> Db -> string + (Db * A)) (s : Server) (e : Env) :
  healthy e = true ->
  storage q exec (s, e) =
  match exec (now e) (db s) with
  | inl msg => (inl msg, (sent q s, advance e))
  | inr (d, a) => (inr a, (with_db d (sent q s), advance e))
  end.
Proof.
  unfold healthy, storage. destruct (faults e) as [| [msg |] t]; simpl;
    intros H; try discriminate; reflexivity.
Qed.

Lemma db_get_healthy (v : SqlValue) (s : Server) (e : Env) :
  healthy e = true ->
  db_get v (s, e) =
  (inr (select_by_id v (db s)), (with_db (db s) (sent (SelectStudent v) s), advance e)).
Proof. intros H. unfold db_get. rewrite storage_healthy by assumption. reflexivity. Qed.

(** ** What the statements do to the table *)

Lemma select_by_id_matches (v : SqlValue) (d : Db) (r : Student) :
  select_by_id v d = Some r -> In r (rows d) /\ id_matches v r = true.
Proof. unfold select_by_id. apply find_some. Qed.

Lemma select_after_delete (v : SqlValue) (d : Db) :
  select_by_id v (delete v d) = None.
Proof.
  unfold select_by_id, delete. simpl.
  induction (rows d) as [| r t IH]; simpl; [reflexivity |].
  destruct (id_matches v r) eqn:E; simpl; [exact IH |].
  rewrite E. exact IH.
Qed.

Lemma update_no_match (n e : SqlValue) (a : option Z) (g v : SqlValue) (d : Db) :
  select_by_id v d = None -> update n e a g v d = inr (d, 0).
Proof.
  unfold select_by_id, update. intros H.
  assert (F : filter (id_matches v) (rows d) = []).
  { induction (rows d) as [| r t IH]; simpl in *; [reflexivity |].
    destruct (id_matches v r); [discriminate | auto]. }
  rewrite F. reflexivity.
Qed.

(** C2.  A [POST /students] or [PUT /students/:id] request in which one
    of [name], [email], [age], [gender] is missing (absent, [null] or the
    empty string) is answered with status 400, and the process is left as
    it was: no record is created or modified, and a listing before and
    after the request returns the same records, so the same count. *)
Theorem missing_field_bad_request (i : string) (b : ReqBody) (e : Env) (s : Server) :
  missing (body_name b) \/ missing (body_email b) \/
  missing (body_age b) \/ missing (body_gender b) ->
  let post := serve (POST_students b) e s in
  let put := serve (PUT_student i b) e s in
  status (fst post) = 400 /\ status (fst put) = 400 /\
  rows (db (snd post)) = rows (db s) /\ rows (db (snd put)) = rows (db s) /\
  forall e',
    fst (serve GET_students e' (snd post)) = fst (serve GET_students e' s) /\
    fst (serve GET_students e' (snd put)) = fst (serve GET_students e' s).
Proof.
  intros H.
  assert (P : present b = false).
  { unfold present.
    destruct H as [H | [H | [H | H]]]; apply missing_not_truthy in H; rewrite H;
      repeat rewrite andb_false_r; reflexivity. }
  cbv zeta. rewrite (post_rejected b e s P), (put_rejected i b e s P).
  simpl. repeat split; reflexivity.
Qed.

(** C9.  A [POST /students] or [PUT /students/:id] request whose [age]
    is the number 0, or any other falsy value such as the empty string,
    is answered with status 400 whatever the other fields are, and no
    statement is sent to the database: the process is left as it was. *)
Theorem falsy_age_bad_request (i : string) (b : ReqBody) (e : Env) (s : Server) :
  truthy (body_age b) = false ->
  let post := serve (POST_students b) e s in
  let put := serve (PUT_student i b) e s in
  status (fst post) = 400 /\ status (fst put) = 400 /\
  issued (snd post) = issued s /\ issued (snd put) = issued s /\
  db (snd post) = db s /\ db (snd put) = db s.
Proof.
  intros H.
  assert (P : present b = false).
  { unfold present. rewrite H. repeat rewrite andb_false_r. reflexivity. }
  cbv zeta. rewrite (post_rejected b e s P), (put_rejected i b e s P).
  simpl. repeat split; reflexivity.
Qed.

(** C7.  For a [PUT /students/:id] request with all four fields present,
    served while the engine raises no error: if no record has that id,
    the response has status 404 and the table is unchanged. *)
Theorem put_absent_not_found (i : string) (b : ReqBody) (e : Env) (s : Server) :
  present b = true ->
  healthy e = true ->
  select_by_id (SText i) (db s) = None ->
  fst (serve (PUT_student i b) e s) = not_found i /\
  status (fst (serve (PUT_student i b) e s)) = 404 /\
  db (snd (serve (PUT_student i b) e s)) = db s.
Proof.
  intros P H N.
  assert (E : serve (PUT_student i b) e s =
    (not_found i,
     with_db (db s)
       (sent (UpdateStudent (bind_value (body_name b)) (bind_value (body_email b))
                (parseInt (body_age b)) (bind_value (body_gender b)) (SText i)) s))).
  { unfold serve, route, put_student. rewrite validation_test, P. simpl.
    unfold try_catch, bind, db_run_update.
    rewrite storage_healthy by assumption.
    rewrite update_no_match by assumption. reflexivity. }
  rewrite E. simpl. repeat split; reflexivity.
Qed.

(** C4.  For a [DELETE /students/:id] request served while the engine
    raises no error: if a record has that id, the response has status 200
    and its body is that record as it was stored just before the removal;
    afterwards a [GET /students/:id] for the same id returns 404. *)
Theorem delete_returns_record_then_gone (i : string) (e e' : Env) (s : Server)
    (r : Student) :
  healthy e = true ->
  healthy e' = true ->
  select_by_id (SText i) (db s) = Some r ->
  let after := snd (serve (DELETE_student i) e s) in
  fst (serve (DELETE_student i) e s) = res_json 200 (JsonStudent r) /\
  In r (rows (db s)) /\
  select_by_id (SText i) (db after) = None /\
  status (fst (serve (GET_student i) e' after)) = 404.
Proof.
  intros H H' F.
  assert (E : serve (DELETE_student i) e s =
    (res_json 200 (JsonStudent r),
     with_db (delete (SText i) (db s))
       (sent (DeleteStudent (SText i)) (with_db (db s) (sent (SelectStudent (SText i)) s))))).
  { unfold serve, route, delete_student, try_catch, bind.
    rewrite db_get_healthy by assumption. rewrite F.
    unfold db_run_delete. rewrite storage_healthy by (apply healthy_advance; assumption).
    reflexivity. }
  cbv zeta. rewrite E. simpl.
  split; [reflexivity |]. split; [apply (select_by_id_matches _ _ _ F) |].
  split; [apply select_after_delete |].
  unfold serve, route, get_student, try_catch, bind.
  rewrite db_get_healthy by assumption. simpl.
  rewrite select_after_delete. reflexivity.
Qed.


(** ** Creating a record *)

Lemma largest_id_bound (l : list Student) (x : Student) :
  In x l -> id x <= largest_id l.
Proof.
  induction l as [| r t IH]; simpl; [tauto |].
  intros [-> | H]; [lia |]. specialize (IH H). lia.
Qed.

Lemma insert_inv (vn ve : SqlValue) (va : option Z) (vg : SqlValue)
    (t : string) (d d' : Db) (i : Z) :
  insert vn ve va vg t d = inr (d', i) ->
  exists n e a g,
    check_not_null vn ve va vg = inr (n, e, a, g) /\
    i = Z.max (seq d) (largest_id (rows d)) + 1 /\
    d' = {| rows := (rows d ++ [{| id := i; name := n; email := e; age := a;
                                  gender := g; created_at := t |}])%list;
            seq := i |}.
Proof.
  unfold insert.
  destruct (max_rowid <=? Z.max (seq d) (largest_id (rows d))); [discriminate |].
  destruct (check_not_null vn ve va vg) as [msg | [[[n e] a] g]]; [discriminate |].
  intros H. inversion H; subst. exists n, e, a, g. auto.
Qed.

Lemma insert_fresh (vn ve : SqlValue) (va : option Z) (vg : SqlValue)
    (t : string) (d d' : Db) (i : Z) :
  insert vn ve va vg t d = inr (d', i) ->
  seq d < i /\ forall x, In x (rows d) -> id x < i.
Proof.
  intros H. apply insert_inv in H. destruct H as (n & e & a & g & _ & -> & _).
  split; [lia |]. intros x Hx. apply largest_id_bound in Hx. lia.
Qed.

Lemma find_last {A} (f : A -> bool) (l : list A) (r : A) :
  (forall x, In x l -> f x = false) -> f r = true -> find f (l ++ [r]) = Some r.
Proof.
  intros N Y. induction l as [| x t IH]; simpl.
  - rewrite Y. reflexivity.
  - rewrite (N x) by (left; reflexivity). apply IH.
    intros y Hy. apply N. right. exact Hy.
Qed.

Lemma select_inserted (vn ve : SqlValue) (va : option Z) (vg : SqlValue)
    (t : string) (d d' : Db) (i : Z) :
  insert vn ve va vg t d = inr (d', i) ->
  exists r, select_by_id (SInt i) d' = Some r /\ id r = i /\
            rows d' = (rows d ++ [r])%list.
Proof.
  intros H. pose proof (insert_fresh _ _ _ _ _ _ _ _ H) as [_ F].
  apply insert_inv in H. destruct H as (n & e & a & g & _ & Hi & ->).
  exists {| id := i; name := n; email := e; age := a; gender := g;
            created_at := t |}.
  split; [| split; reflexivity].
  unfold select_by_id. simpl. apply find_last.
  - intros x Hx. simpl. apply Z.eqb_neq. specialize (F x Hx). lia.
  - simpl. apply Z.eqb_refl.
Qed.




(** ** Updating a record *)

Lemma overwrite_id (v : SqlValue) (n e : string) (a : Z) (g : string) (r : Student) :
  id (overwrite v n e a g r) = id r.
Proof. unfold overwrite. destruct (id_matches v r); reflexivity. Qed.

Lemma id_matches_by_id (v : SqlValue) (r r' : Student) :
  id r = id r' -> id_matches v r = id_matches v r'.
Proof. intros H. unfold id_matches. rewrite H. reflexivity. Qed.


Lemma update_hit (vn ve : SqlValue) (va : option Z) (vg v : SqlValue) (d : Db)
    (r0 : Student) (n e : string) (a : Z) (g : string) :
  select_by_id v d = Some r0 ->
  check_not_null vn ve va vg = inr (n, e, a, g) ->
  exists c,
    0 < c /\
    update vn ve va vg v d =
    inr ({| rows := map (overwrite v n e a g) (rows d); seq := seq d |}, c).
Proof.
  unfold select_by_id, update. intros F C.
  destruct (filter (id_matches v) (rows d)) as [| h t] eqn:Hits.
  - exfalso. apply find_some in F. destruct F as [Hin Hm].
    assert (X : In r0 (filter (id_matches v) (rows d))) by (apply filter_In; auto).
    rewrite Hits in X. exact X.
  - rewrite C. exists (Z.of_nat (List.length (h :: t))). split.
    + simpl List.length. lia.
    + reflexivity.
Qed.

Lemma update_constraint (vn ve : SqlValue) (va : option Z) (vg v : SqlValue)
    (d : Db) (r0 : Student) (msg : string) :
  select_by_id v d = Some r0 ->
  check_not_null vn ve va vg = inl msg ->
  update vn ve va vg v d = inl msg.
Proof.
  unfold select_by_id, update. intros F C.
  destruct (filter (id_matches v) (rows d)) as [| h t] eqn:Hits.
  - exfalso. apply find_some in F. destruct F as [Hin Hm].
    assert (X : In r0 (filter (id_matches v) (rows d))) by (apply filter_In; auto).
    rewrite Hits in X. exact X.
  - rewrite C. reflexivity.
Qed.


(** ** Listing *)

Lemma insert_desc_perm (r : Student) (l : list Student) :
  Permutation (insert_desc r l) (r :: l).
Proof.
  induction l as [| x t IH]; simpl; [apply Permutation_refl |].
  destruct (id x <=? id r); [apply Permutation_refl |].
  eapply Permutation_trans; [apply perm_skip, IH | apply perm_swap].
Qed.

Lemma order_by_perm (l : list Student) :
  Permutation (fold_right insert_desc [] l) l.
Proof.
  induction l as [| r t IH]; simpl; [constructor |].
  eapply Permutation_trans; [apply insert_desc_perm | apply perm_skip, IH].
Qed.

Lemma insert_desc_sorted (r : Student) (l : list Student) :
  StronglySorted (fun a b => id b <= id a) l ->
  StronglySorted (fun a b => id b <= id a) (insert_desc r l).
Proof.
  induction l as [| x t IH]; simpl; intros S.
  - repeat constructor.
  - inversion S as [| ? ? St Hx]; subst.
    destruct (id x <=? id r) eqn:C.
    + apply Z.leb_le in C. constructor; [exact S |].
      constructor; [exact C |].
      rewrite Forall_forall in *. intros y Hy. specialize (Hx y Hy). lia.
    + apply Z.leb_gt in C. constructor; [apply IH, St |].
      rewrite Forall_forall in *. intros y Hy.
      apply (Permutation_in _ (insert_desc_perm r t)) in Hy.
      destruct Hy as [<- | Hy]; [lia | apply Hx, Hy].
Qed.

Lemma order_by_sorted (l : list Student) :
  StronglySorted (fun a b => id b <= id a) (fold_right insert_desc [] l).
Proof.
  induction l as [| r t IH]; simpl; [constructor | apply insert_desc_sorted, IH].
Qed.

Lemma sorted_distinct_strict (l : list Student) :
  StronglySorted (fun a b => id b <= id a) l ->
  NoDup (map id l) ->
  strictly_descending l.
Proof.
  unfold strictly_descending.
  induction l as [| r t IH]; intros S N; [constructor |].
  inversion S as [| ? ? St Hr]; subst. simpl in N.
  inversion N as [| ? ? Nr Nt]; subst.
  constructor; [apply IH; assumption |].
  rewrite Forall_forall in *. intros y Hy.
  assert (id y <> id r) by (intros E; apply Nr; rewrite <- E; apply in_map, Hy).
  specialize (Hr y Hy). lia.
Qed.

(** C5.  In every state of the store (the table under its primary key,
    so with no id twice), a [GET /students] served while the engine
    raises no error returns status 200 with all the stored records: the
    list is a rearrangement of the table, nothing left out and nothing
    cut off, in strictly descending order of id; the table is not
    changed. *)
Theorem get_students_all_descending (e : Env) (s : Server) :
  healthy e = true ->
  NoDup (map id (rows (db s))) ->
  exists l,
    fst (serve GET_students e s) = res_json 200 (JsonStudents l) /\
    Permutation l (rows (db s)) /\
    List.length l = List.length (rows (db s)) /\
    strictly_descending l /\
    db (snd (serve GET_students e s)) = db s.
Proof.
  intros H N. exists (select_all_desc (db s)).
  assert (E : serve GET_students e s =
    (res_json 200 (JsonStudents (select_all_desc (db s))),
     with_db (db s) (sent SelectStudents s))).
  { unfold serve, route, get_students, try_catch, bind, db_all.
    rewrite storage_healthy by assumption. reflexivity. }
  rewrite E. simpl. unfold select_all_desc.
  pose proof (order_by_perm (rows (db s))) as P.
  split; [reflexivity |]. split; [exact P |].
  split; [apply Permutation_length, P |].
  split; [| reflexivity].
  apply sorted_distinct_strict; [apply order_by_sorted |].
  apply (Permutation_NoDup (l := map id (rows (db s)))); [| exact N].
  apply Permutation_map, Permutation_sym, P.
Qed.

(** ** Every way a request can go *)

Lemma storage_cases {A} (q : Statement)
    (exec : string -> Db -> string + (Db * A)) (s : Server) (e : Env) :
  (exists msg,
      storage q exec (s, e) = (inl msg, (sent q s, advance e)) /\
      (In (Some msg) (faults e) \/ exec (now e) (db s) = inl msg)) \/
  (exists d a,
      exec (now e) (db s) = inr (d, a) /\
      storage q exec (s, e) = (inr a, (with_db d (sent q s), advance e))).
Proof.
  unfold storage.
  destruct (faults e) as [| [msg |] t] eqn:F.
  - destruct (exec (now e) (db s)) as [msg | [d a]]; [left | right]; eauto.
  - left. exists msg. split; [reflexivity | left; left; reflexivity].
  - destruct (exec (now e) (db s)) as [msg | [d a]]; [left | right]; eauto.
Qed.

Lemma faults_advance (e : Env) (f : option string) :
  In f (faults (advance e)) -> In f (faults e).
Proof. unfold advance. simpl. destruct (faults e); simpl; auto. Qed.

#[local] Arguments storage : simpl never.

Ltac storage_call :=
  match goal with
  | |- context [storage ?q ?x (?s, ?e)] =>
      let msg := fresh "msg" in
      let R := fresh "R" in
      let O := fresh "O" in
      let d := fresh "d" in
      let a := fresh "a" in
      let X := fresh "X" in
      destruct (storage_cases q x s e) as [(msg & R & O) | (d & a & X & R)];
      rewrite R; clear R; simpl
  end.

Ltac enter_handler :=
  unfold serve, route, post_students, get_students, get_student, put_student,
    delete_student, try_catch, bind, db_run_insert, db_get, db_all,
    db_run_update, db_run_delete.

Lemma serve_effect (r : Request) (e : Env) (s : Server) :
  statement_effect (db s) (db (snd (serve r e s))).
Proof.
  destruct r as [b | | i | i b | i]; enter_handler.
  - destruct (_ || _); simpl; [constructor |].
    storage_call; [constructor |].
    storage_call; [eapply effect_insert; eassumption |].
    inversion X0; subst. eapply effect_insert; eassumption.
  - storage_call; [constructor |]. inversion X; subst. constructor.
  - storage_call; [constructor |]. inversion X; subst.
    destruct (select_by_id _ _); simpl; constructor.
  - destruct (_ || _); simpl; [constructor |].
    storage_call; [constructor |].
    destruct (a =? 0); simpl; [eapply effect_update; eassumption |].
    storage_call; [eapply effect_update; eassumption |].
    inversion X0; subst. eapply effect_update; eassumption.
  - storage_call; [constructor |]. inversion X; subst.
    destruct (select_by_id _ _); simpl; [| constructor].
    storage_call; [constructor |]. inversion X0; subst. constructor.
Qed.

(** ** The primary key *)

Lemma update_inv (vn ve : SqlValue) (va : option Z) (vg v : SqlValue)
    (d d' : Db) (c : Z) :
  update vn ve va vg v d = inr (d', c) ->
  d' = d \/
  exists n e a g,
    d' = {| rows := map (overwrite v n e a g) (rows d); seq := seq d |}.
Proof.
  unfold update. destruct (filter (id_matches v) (rows d)) as [| h t].
  - intros H. inversion H. left. reflexivity.
  - destruct (check_not_null vn ve va vg) as [msg | [[[n e] a] g]]; [discriminate |].
    intros H. inversion H. right. exists n, e, a, g. reflexivity.
Qed.

Lemma map_id_overwrite (v : SqlValue) (n e : string) (a : Z) (g : string)
    (l : list Student) :
  map id (map (overwrite v n e a g) l) = map id l.
Proof.
  rewrite map_map. apply map_ext. intros r. apply overwrite_id.
Qed.

Lemma nodup_ids_filter (f : Student -> bool) (l : list Student) :
  NoDup (map id l) -> NoDup (map id (filter f l)).
Proof.
  induction l as [| r t IH]; simpl; intros N; [constructor |].
  inversion N as [| ? ? Nr Nt]; subst.
  destruct (f r); simpl; [| apply IH, Nt].
  constructor; [| apply IH, Nt].
  intros Hin. apply Nr. apply in_map_iff in Hin. destruct Hin as (x & Hx & Hin).
  apply filter_In in Hin. rewrite <- Hx. apply in_map. tauto.
Qed.

Lemma effect_keeps_key (d d' : Db) :
  statement_effect d d' ->
  NoDup (map id (rows d)) -> NoDup (map id (rows d')).
Proof.
  intros [| vn ve va vg t d1 i I | vn ve va vg vid d1 c U | vid] N.
  - exact N.
  - pose proof (insert_fresh _ _ _ _ _ _ _ _ I) as [_ F].
    apply insert_inv in I. destruct I as (n & e & a & g & _ & _ & ->). simpl.
    rewrite map_app. simpl.
    apply (Permutation_NoDup (l := i :: map id (rows d))).
    + apply Permutation_cons_append.
    + constructor; [| exact N]. intros Hin. apply in_map_iff in Hin.
      destruct Hin as (x & Hx & Hin). specialize (F x Hin). lia.
  - apply update_inv in U. destruct U as [-> | (n & e & a & g & ->)]; [exact N |].
    simpl. rewrite map_id_overwrite. exact N.
  - simpl. apply nodup_ids_filter, N.
Qed.

Lemma effect_seq (d d' : Db) : statement_effect d d' -> seq d <= seq d'.
Proof.
  intros [| vn ve va vg t d1 i I | vn ve va vg vid d1 c U | vid].
  - lia.
  - pose proof (insert_fresh _ _ _ _ _ _ _ _ I) as [F _].
    apply insert_inv in I. destruct I as (n & e & a & g & _ & _ & ->). simpl. lia.
  - apply update_inv in U. destruct U as [-> | (n & e & a & g & ->)]; simpl; lia.
  - simpl. lia.
Qed.

Lemma reachable_key (s : Server) : reachable s -> NoDup (map id (rows (db s))).
Proof.
  induction 1 as [| r e s R IH]; [constructor |].
  apply (effect_keeps_key (db s)); [apply serve_effect | exact IH].
Qed.

Lemma serve_all_seq (l : list (Request * Env)) (s : Server) :
  seq (db s) <= seq (db (serve_all l s)).
Proof.
  revert s. induction l as [| [r e] t IH]; intros s; simpl; [lia |].
  pose proof (effect_seq _ _ (serve_effect r e s)). specialize (IH (snd (serve r e s))).
  lia.
Qed.

Lemma post_created (b : ReqBody) (e : Env) (s : Server) (i : Z) :
  created_id (fst (serve (POST_students b) e s)) = Some i ->
  seq (db s) < i /\ seq (db (snd (serve (POST_students b) e s))) = i /\
  In i (map id (rows (db (snd (serve (POST_students b) e s))))).
Proof.
  enter_handler. destruct (_ || _); simpl; [discriminate |].
  storage_call; [discriminate |].
  storage_call; [discriminate |].
  inversion X0; subst. clear X0.
  destruct (select_by_id (SInt a) d0) as [r |] eqn:S; simpl; [| discriminate].
  unfold created_id. simpl. intros H. inversion H; subst. clear H.
  apply select_by_id_matches in S. destruct S as [Hin M]. simpl in M.
  apply Z.eqb_eq in M.
  pose proof (insert_fresh _ _ _ _ _ _ _ _ X) as [F _].
  apply insert_inv in X. destruct X as (n & m & a' & g & _ & Ha & ->). simpl in *.
  split; [lia |]. split; [lia |]. apply in_map, Hin.
Qed.

(** C8.  In every state that any sequence of requests (creates, updates,
    deletes, reads, with or without storage errors) leads to, no two
    records of the table have the same id; and the id that a create
    assigns is never assigned again: whatever requests follow, deletes
    of that record included, a later create assigns a strictly larger
    id. *)
Theorem id_unique_never_reused (s : Server) :
  reachable s ->
  NoDup (map id (rows (db s))) /\
  (forall r1 r2, In r1 (rows (db s)) -> In r2 (rows (db s)) ->
                 id r1 = id r2 -> r1 = r2) /\
  forall b e i later b' e' j,
    created_id (fst (serve (POST_students b) e s)) = Some i ->
    created_id
      (fst (serve (POST_students b') e'
              (serve_all later (snd (serve (POST_students b) e s))))) = Some j ->
    i < j.
Proof.
  intros R. pose proof (reachable_key s R) as N.
  split; [exact N |]. split.
  - intros r1 r2 H1 H2 E.
    apply (NoDup_map_inv id) in N as Nr.
    apply In_nth_error in H1, H2. destruct H1 as [k1 K1], H2 as [k2 K2].
    assert (K : k1 = k2).
    { apply (proj1 (NoDup_nth_error (map id (rows (db s)))) N).
      - rewrite length_map. apply nth_error_Some. rewrite K1. discriminate.
      - rewrite !nth_error_map, K1, K2. simpl. rewrite E. reflexivity. }
    subst k2. rewrite K1 in K2. inversion K2. reflexivity.
  - intros b e i later b' e' j Hi Hj.
    apply post_created in Hi. destruct Hi as (_ & Si & _).
    apply post_created in Hj. destruct Hj as (Sj & _).
    pose proof (serve_all_seq later (snd (serve (POST_students b) e s))). lia.
Qed.

(** ** Storage errors *)

Lemma check_not_null_error (vn ve : SqlValue) (va : option Z) (vg : SqlValue)
    (msg : string) :
  check_not_null vn ve va vg = inl msg -> exists column, msg = not_null_failed column.
Proof.
  unfold check_not_null.
  destruct (text_column vn); [| intros H; inversion H; eauto].
  destruct (text_column ve); [| intros H; inversion H; eauto].
  destruct va; [| intros H; inversion H; eauto].
  destruct (text_column vg); [discriminate | intros H; inversion H; eauto].
Qed.

Lemma insert_error (vn ve : SqlValue) (va : option Z) (vg : SqlValue)
    (t : string) (d : Db) (msg : string) :
  insert vn ve va vg t d = inl msg ->
  msg = database_full \/ exists column, msg = not_null_failed column.
Proof.
  unfold insert.
  destruct (max_rowid <=? _); [intros H; inversion H; auto |].
  destruct (check_not_null vn ve va vg) as [m | [[[n e] a] g]] eqn:C; [| discriminate].
  intros H. inversion H; subst. right. eapply check_not_null_error, C.
Qed.

Lemma update_error (vn ve : SqlValue) (va : option Z) (vg v : SqlValue)
    (d : Db) (msg : string) :
  update vn ve va vg v d = inl msg -> exists column, msg = not_null_failed column.
Proof.
  unfold update. destruct (filter (id_matches v) (rows d)); [discriminate |].
  destruct (check_not_null vn ve va vg) as [m | [[[n e] a] g]] eqn:C; [| discriminate].
  intros H. inversion H; subst. eapply check_not_null_error, C.
Qed.

Ltac error_origin :=
  match goal with
  | O : In (Some ?m) (faults (advance ?e)) \/ _ |- _ =>
      destruct O as [O | O]; [apply faults_advance in O; auto | ]
  | O : In (Some ?m) (faults ?e) \/ _ |- _ =>
      destruct O as [O | O]; [auto | ]
  end;
  try discriminate;
  try (match goal with
       | O : insert _ _ _ _ _ _ = inl _ |- _ => apply insert_error in O; tauto
       | O : update _ _ _ _ _ _ = inl _ |- _ => apply update_error in O; tauto
       end).

Lemma storage_fault {A} (q : Statement)
    (exec : string -> Db -> string + (Db * A)) (s : Server) (e : Env)
    (msg : string) (t : list (option string)) :
  faults e = Some msg :: t ->
  storage q exec (s, e) = (inl msg, (sent q s, advance e)).
Proof. intros F. unfold storage. rewrite F. reflexivity. Qed.

(** An error raised by the first storage call of a request is answered
    with 500, reported to the client and printed on the console; the
    table is not touched. *)
Lemma first_fault_reported (r : Request) (e : Env) (s : Server)
    (msg : string) (t : list (option string)) :
  passes_validation r = true ->
  faults e = Some msg :: t ->
  fst (serve r e s) = internal_error (failure_message r) msg /\
  console (snd (serve r e s)) = (console s ++ [(failure_label r, msg)])%list /\
  db (snd (serve r e s)) = db s.
Proof.
  intros V F.
  destruct r as [b | | i | i b | i]; enter_handler; simpl in V;
    try (rewrite validation_test, V; simpl);
    rewrite (storage_fault _ _ _ _ _ _ F); simpl; repeat split; reflexivity.
Qed.

Lemma students_error_reported (r : Request) (e : Env) (s : Server) :
  status (fst (serve r e s)) = 500 ->
  exists detail,
    body (fst (serve r e s)) =
      JsonError "Internal Server Error" (failure_message r ++ detail)%string /\
    console (snd (serve r e s)) = (console s ++ [(failure_label r, detail)])%list /\
    (In (Some detail) (faults e) \/ detail = database_full \/
     exists column, detail = not_null_failed column).
Proof.
  destruct r as [b | | i | i b | i]; enter_handler.
  - destruct (_ || _); simpl; [discriminate |].
    storage_call.
    { intros _. exists msg. repeat split. error_origin. }
    storage_call.
    { intros _. exists msg. repeat split. error_origin. }
    discriminate.
  - storage_call.
    { intros _. exists msg. repeat split. error_origin. }
    discriminate.
  - storage_call.
    { intros _. exists msg. repeat split. error_origin. }
    destruct a; simpl; discriminate.
  - destruct (_ || _); simpl; [discriminate |].
    storage_call.
    { intros _. exists msg. repeat split. error_origin. }
    destruct (a =? 0); simpl; [discriminate |].
    storage_call.
    { intros _. exists msg. repeat split. error_origin. }
    discriminate.
  - storage_call.
    { intros _. exists msg. repeat split. error_origin. }
    destruct a; simpl; [| discriminate].
    storage_call.
    { intros _. exists msg. repeat split. error_origin. }
    discriminate.
Qed.

Lemma health_error_reported (iso : string) (e : Env) (s : Server)
    (resp : Health.HealthResponse) (c : Server * Env) :
  Health.get_health iso (s, e) = (inr resp, c) ->
  Health.health_status resp = 500 ->
  exists detail,
    Health.health_body resp = Health.HealthError detail /\
    In (Some detail) (faults e) /\
    fst c = s.
Proof.
  unfold Health.get_health, try_catch, bind, Health.db_get_count, ret.
  destruct (faults e) as [| [msg |] t]; intros G; inversion G; subst; simpl;
    intros S5; try discriminate S5.
  exists msg. repeat split. left. reflexivity.
Qed.

(** C6, as amended.  For every request that fails with a storage error
    (a handler answers 500 for no other reason), the body of the 500
    response carries the message of the underlying error.  On the five
    [/students] routes the body has the error ['Internal Server Error']
    and a message made of a fixed text for the route followed by the
    message of the underlying error (one the engine raised of its own
    accord, or a failed constraint of the table), and the same message is
    also written to the server's console, after the route's label.  On
    [/health] the body has the status ['error'] and the engine's message
    alone, and nothing is written to the console. *)
Theorem storage_error_is_reported (r : Request) (iso : string) (e : Env)
    (s : Server) :
  (status (fst (serve r e s)) = 500 ->
   exists detail,
     body (fst (serve r e s)) =
       JsonError "Internal Server Error" (failure_message r ++ detail)%string /\
     console (snd (serve r e s)) = (console s ++ [(failure_label r, detail)])%list /\
     (In (Some detail) (faults e) \/ detail = database_full \/
      exists column, detail = not_null_failed column)) /\
  (forall resp c,
      Health.get_health iso (s, e) = (inr resp, c) ->
      Health.health_status resp = 500 ->
      exists detail,
        Health.health_body resp = Health.HealthError detail /\
        In (Some detail) (faults e) /\
        fst c = s).
Proof.
  split.
  - apply students_error_reported.
  - intros resp c. apply health_error_reported.
Qed.

(** ** An age that is not a number *)

Lemma read_digits_started (s : string) (a : Z) : read_digits s (Some a) <> None.
Proof.
  revert a. induction s as [| c r IH]; intros a; simpl; [discriminate |].
  destruct (digit_value c); [apply IH | discriminate].
Qed.

Lemma read_digits_none (s : string) :
  read_digits s None = None <-> starts_with_digit s = false.
Proof.
  destruct s as [| c r]; simpl; [tauto |].
  destruct (digit_value c) as [d |]; [| tauto].
  split; [| discriminate]. intros H. exfalso. exact (read_digits_started _ _ H).
Qed.

Lemma parseInt_nan (s : string) :
  parseInt_string s = None <-> starts_number s = false.
Proof.
  unfold parseInt_string, starts_number.
  destruct (strip_sign (trim_start s)) as [sign rest]. simpl.
  rewrite <- read_digits_none.
  destruct (read_digits rest None); simpl; split; congruence.
Qed.

Lemma truthy_is_stored (v : JValue) :
  truthy v = true -> exists t, text_column (bind_value v) = Some t.
Proof. destruct v; simpl; try discriminate; eauto. Qed.

Lemma nan_age_violates (vn ve vg : JValue) :
  truthy vn = true -> truthy ve = true -> truthy vg = true ->
  check_not_null (bind_value vn) (bind_value ve) None (bind_value vg)
  = inl (not_null_failed "age").
Proof.
  intros Hn He Hg. unfold check_not_null.
  destruct (truthy_is_stored vn Hn) as [n ->].
  destruct (truthy_is_stored ve He) as [m ->]. reflexivity.
Qed.

(** C10, as amended.  For a [POST /students] request with [name],
    [email] and [gender] present whose [age] is a non-empty string in
    which, after any leading white space and one optional sign, no
    decimal digit comes next (for example ["abc"]): the presence check
    passes, [parseInt] coerces the age to [NaN], the INSERT violates the
    [NOT NULL] constraint on [age], and the response is 500 with no
    record created, not 400.  When the engine raises nothing else first
    the message reported is that of the constraint. *)
Theorem post_unparsable_age_500 (b : ReqBody) (e : Env) (s : Server) (str : string) :
  truthy (body_name b) = true ->
  truthy (body_email b) = true ->
  truthy (body_gender b) = true ->
  body_age b = JStr str ->
  str <> "" ->
  starts_number str = false ->
  present b = true /\
  parseInt (body_age b) = None /\
  check_not_null (bind_value (body_name b)) (bind_value (body_email b))
    (parseInt (body_age b)) (bind_value (body_gender b))
    = inl (not_null_failed "age") /\
  status (fst (serve (POST_students b) e s)) = 500 /\
  db (snd (serve (POST_students b) e s)) = db s /\
  (healthy e = true ->
   Z.max (seq (db s)) (largest_id (rows (db s))) < max_rowid ->
   fst (serve (POST_students b) e s) =
     internal_error "Failed to add student: " (not_null_failed "age")).
Proof.
  intros Hn Hm Hg Ha Ne Sn.
  assert (P : present b = true).
  { unfold present. rewrite Hn, Hm, Hg, Ha. simpl.
    apply String.eqb_neq in Ne. rewrite Ne. reflexivity. }
  assert (Pa : parseInt (body_age b) = None).
  { unfold parseInt. rewrite Ha. simpl. apply parseInt_nan, Sn. }
  pose proof (nan_age_violates _ _ _ Hn Hm Hg) as C.
  assert (I : forall t d, exists msg,
             insert (bind_value (body_name b)) (bind_value (body_email b)) None
               (bind_value (body_gender b)) t d = inl msg).
  { intros t d. unfold insert. rewrite C. destruct (max_rowid <=? _); eauto. }
  split; [exact P |]. split; [exact Pa |]. split; [rewrite Pa; exact C |].
  assert (S5 : status (fst (serve (POST_students b) e s)) = 500 /\
               db (snd (serve (POST_students b) e s)) = db s).
  { enter_handler. rewrite validation_test, P, Pa. simpl.
    storage_call; [split; reflexivity |].
    destruct (I (now e) (db s)) as [msg Hmsg]. rewrite Hmsg in X. discriminate. }
  destruct S5 as [S5 Sd]. split; [exact S5 |]. split; [exact Sd |].
  intros H Full. enter_handler. rewrite validation_test, P, Pa. simpl.
  rewrite storage_healthy by assumption.
  unfold insert. apply Z.leb_gt in Full. rewrite Full, C. reflexivity.
Qed.

(** ** What each route answers when the engine is healthy *)

Lemma post_outcome (b : ReqBody) (e : Env) (s : Server) :
  present b = true ->
  healthy e = true ->
  let tried :=
    insert (bind_value (body_name b)) (bind_value (body_email b))
      (parseInt (body_age b)) (bind_value (body_gender b)) (now e) (db s) in
  fst (serve (POST_students b) e s) =
    match tried with
    | inl msg => internal_error "Failed to add student: " msg
    | inr (d, i) => res_json 201 (json_student (select_by_id (SInt i) d))
    end /\
  db (snd (serve (POST_students b) e s)) =
    match tried with
    | inl _ => db s
    | inr (d, _) => d
    end.
Proof.
  intros P H. cbv zeta. enter_handler. rewrite validation_test, P. simpl.
  rewrite storage_healthy by assumption.
  destruct (insert _ _ _ _ _ _) as [msg | [d i]]; simpl; [split; reflexivity |].
  rewrite storage_healthy by (apply healthy_advance; assumption).
  simpl. split; reflexivity.
Qed.

Lemma put_outcome (i : string) (b : ReqBody) (e : Env) (s : Server) :
  present b = true ->
  healthy e = true ->
  let tried :=
    update (bind_value (body_name b)) (bind_value (body_email b))
      (parseInt (body_age b)) (bind_value (body_gender b)) (SText i) (db s) in
  fst (serve (PUT_student i b) e s) =
    match tried with
    | inl msg => internal_error "Failed to update student: " msg
    | inr (d, c) =>
        if c =? 0 then not_found i
        else res_json 200 (json_student (select_by_id (SText i) d))
    end /\
  db (snd (serve (PUT_student i b) e s)) =
    match tried with
    | inl _ => db s
    | inr (d, _) => d
    end.
Proof.
  intros P H. cbv zeta. enter_handler. rewrite validation_test, P. simpl.
  rewrite storage_healthy by assumption.
  destruct (update _ _ _ _ _ _) as [msg | [d c]]; simpl; [split; reflexivity |].
  destruct (c =? 0); simpl; [split; reflexivity |].
  rewrite storage_healthy by (apply healthy_advance; assumption).
  simpl. split; reflexivity.
Qed.

Lemma get_outcome (i : string) (e : Env) (s : Server) :
  healthy e = true ->
  fst (serve (GET_student i) e s) =
    match select_by_id (SText i) (db s) with
    | Some r => res_json 200 (JsonStudent r)
    | None => not_found i
    end /\
  db (snd (serve (GET_student i) e s)) = db s.
Proof.
  intros H. enter_handler. rewrite storage_healthy by assumption. simpl.
  destruct (select_by_id (SText i) (db s)); simpl; split; reflexivity.
Qed.

Lemma list_outcome (e : Env) (s : Server) :
  healthy e = true ->
  fst (serve GET_students e s) = res_json 200 (JsonStudents (select_all_desc (db s))) /\
  db (snd (serve GET_students e s)) = db s.
Proof.
  intros H. enter_handler. rewrite storage_healthy by assumption. simpl.
  split; reflexivity.
Qed.

Lemma delete_outcome (i : string) (e : Env) (s : Server) :
  healthy e = true ->
  fst (serve (DELETE_student i) e s) =
    match select_by_id (SText i) (db s) with
    | Some r => res_json 200 (JsonStudent r)
    | None => not_found i
    end /\
  db (snd (serve (DELETE_student i) e s)) =
    match select_by_id (SText i) (db s) with
    | Some _ => delete (SText i) (db s)
    | None => db s
    end.
Proof.
  intros H. enter_handler. rewrite storage_healthy by assumption. simpl.
  destruct (select_by_id (SText i) (db s)); simpl; [| split; reflexivity].
  rewrite storage_healthy by (apply healthy_advance; assumption).
  simpl. split; reflexivity.
Qed.

(** A [201] response comes only from an INSERT that was accepted and a
    read-back that found the new row, whatever the fault plan. *)
Lemma post_201 (b : ReqBody) (e : Env) (s : Server) (r : Student) :
  fst (serve (POST_students b) e s) = res_json 201 (JsonStudent r) ->
  exists d,
    insert (bind_value (body_name b)) (bind_value (body_email b))
      (parseInt (body_age b)) (bind_value (body_gender b)) (now e) (db s)
    = inr (d, id r) /\
    db (snd (serve (POST_students b) e s)) = d /\
    select_by_id (SInt (id r)) d = Some r.
Proof.
  enter_handler. destruct (_ || _); simpl; [discriminate |].
  storage_call; [discriminate |].
  storage_call; [discriminate |].
  inversion X0; subst. clear X0.
  destruct (select_by_id (SInt a) d0) as [r' |] eqn:S; simpl; [| discriminate].
  intros E. inversion E; subst r'. clear E.
  pose proof (select_by_id_matches _ _ _ S) as [_ M]. simpl in M.
  apply Z.eqb_eq in M. subst a. exists d0. auto.
Qed.

(** A [200] response to a PUT carries the row that the id selects in
    the table as the request leaves it. *)
Lemma put_200 (i : string) (b : ReqBody) (e : Env) (s : Server) (r : Student) :
  fst (serve (PUT_student i b) e s) = res_json 200 (JsonStudent r) ->
  select_by_id (SText i) (db (snd (serve (PUT_student i b) e s))) = Some r.
Proof.
  enter_handler. destruct (_ || _); simpl; [discriminate |].
  storage_call; [discriminate |].
  destruct (a =? 0); simpl; [discriminate |].
  storage_call; [discriminate |].
  inversion X0; subst. clear X0.
  destruct (select_by_id (SText i) d0) as [r' |] eqn:S; simpl; [| discriminate].
  intros E. inversion E; subst r'. reflexivity.
Qed.

Lemma select_text_as_int (p : string) (n : Z) (d : Db) :
  text_as_integer p = Some n ->
  select_by_id (SText p) d = select_by_id (SInt n) d.
Proof.
  intros T. unfold select_by_id.
  induction (rows d) as [| x t IH]; simpl; [reflexivity |].
  rewrite T, IH. reflexivity.
Qed.

(** X1.  Round trip of a create: when [POST /students] answers 201 with
    a record, a following [GET /students/:id] with the record's id
    written in decimal, served while the engine raises no error, answers
    200 with the same record, provided the engine reads that text as the
    id. *)
Theorem created_record_is_fetched (b : ReqBody) (e e' : Env) (s : Server)
    (r : Student) :
  fst (serve (POST_students b) e s) = res_json 201 (JsonStudent r) ->
  healthy e' = true ->
  text_as_integer (number_to_string (id r)) = Some (id r) ->
  fst (serve (GET_student (number_to_string (id r))) e'
         (snd (serve (POST_students b) e s)))
  = res_json 200 (JsonStudent r).
Proof.
  intros C H T. destruct (post_201 _ _ _ _ C) as (d & _ & D & S).
  destruct (get_outcome (number_to_string (id r)) e'
              (snd (serve (POST_students b) e s)) H) as [G _].
  rewrite G, D, (select_text_as_int _ _ _ T), S. reflexivity.
Qed.

(** X2.  Round trip of an update: when [PUT /students/:id] answers 200
    with a record, a following [GET /students/:id] for the same id,
    served while the engine raises no error, answers 200 with that same
    record. *)
Theorem updated_record_is_fetched (i : string) (b : ReqBody) (e e' : Env)
    (s : Server) (r : Student) :
  fst (serve (PUT_student i b) e s) = res_json 200 (JsonStudent r) ->
  healthy e' = true ->
  fst (serve (GET_student i) e' (snd (serve (PUT_student i b) e s)))
  = res_json 200 (JsonStudent r).
Proof.
  intros C H. pose proof (put_200 _ _ _ _ _ C) as S.
  destruct (get_outcome i e' (snd (serve (PUT_student i b) e s)) H) as [G _].
  rewrite G, S. reflexivity.
Qed.

(** ** Deleting *)

(** X3.  A [DELETE /students/:id] for an id that no record has, served
    while the engine raises no error, answers 404, leaves the table as it
    was and sends no DELETE statement: only the SELECT goes to the
    database. *)
Theorem delete_absent_not_found (i : string) (e : Env) (s : Server) :
  healthy e = true ->
  select_by_id (SText i) (db s) = None ->
  fst (serve (DELETE_student i) e s) = not_found i /\
  status (fst (serve (DELETE_student i) e s)) = 404 /\
  db (snd (serve (DELETE_student i) e s)) = db s /\
  issued (snd (serve (DELETE_student i) e s))
  = (issued s ++ [SelectStudent (SText i)])%list.
Proof.
  intros H N. enter_handler. rewrite storage_healthy by assumption. simpl.
  rewrite N. simpl. repeat split; reflexivity.
Qed.

Lemma filter_other_ids (l : list Student) (k : Z) :
  ~ In k (map id l) -> filter (fun x => negb (id x =? k)) l = l.
Proof.
  induction l as [| y u IH]; simpl; intros N; [reflexivity |].
  destruct (Z.eqb_spec (id y) k) as [E | E]; [tauto |].
  simpl. f_equal. apply IH. tauto.
Qed.

Lemma remove_by_key (l : list Student) (r : Student) :
  NoDup (map id l) -> In r l ->
  Permutation l (r :: filter (fun x => negb (id x =? id r)) l).
Proof.
  induction l as [| x t IH]; simpl; intros N Hin; [contradiction |].
  inversion N as [| ? ? Nx Nt]; subst.
  destruct Hin as [-> | Hin].
  - rewrite Z.eqb_refl. simpl. apply perm_skip.
    rewrite (filter_other_ids t (id r) Nx). apply Permutation_refl.
  - destruct (Z.eqb_spec (id x) (id r)) as [E | E].
    + exfalso. apply Nx. rewrite E. apply in_map, Hin.
    + simpl. eapply Permutation_trans; [apply perm_skip, IH; assumption |].
      apply perm_swap.
Qed.

Lemma id_matches_selected (v : SqlValue) (d : Db) (r x : Student) :
  select_by_id v d = Some r ->
  id_matches v x = (id x =? id r).
Proof.
  intros S. apply select_by_id_matches in S. destruct S as [_ M].
  unfold id_matches in *. destruct v as [| n | p]; [discriminate | |].
  - apply Z.eqb_eq in M. rewrite M. reflexivity.
  - destruct (text_as_integer p); [| discriminate].
    apply Z.eqb_eq in M. rewrite M. reflexivity.
Qed.

(** X4.  A [DELETE /students/:id] that finds a record, served while the
    engine raises no error on a table that respects its primary key,
    removes that record and nothing else: the table before is the
    deleted record together with the table after, the other records keep
    their order, and the count goes down by exactly one. *)
Theorem delete_removes_one (i : string) (e : Env) (s : Server) (r : Student) :
  healthy e = true ->
  NoDup (map id (rows (db s))) ->
  select_by_id (SText i) (db s) = Some r ->
  let after := db (snd (serve (DELETE_student i) e s)) in
  Permutation (rows (db s)) (r :: rows after) /\
  rows after = filter (fun x => negb (id x =? id r)) (rows (db s)) /\
  S (List.length (rows after)) = List.length (rows (db s)) /\
  seq after = seq (db s).
Proof.
  intros H N F. cbv zeta.
  destruct (delete_outcome i e s H) as [_ D]. rewrite D, F. simpl.
  assert (E : filter (fun x => negb (id_matches (SText i) x)) (rows (db s)) =
              filter (fun x => negb (id x =? id r)) (rows (db s))).
  { apply filter_ext. intros x. rewrite (id_matches_selected _ _ _ x F). reflexivity. }
  unfold id_matches in E. rewrite E.
  pose proof (remove_by_key _ r N (proj1 (select_by_id_matches _ _ _ F))) as P.
  split; [exact P |]. split; [reflexivity |]. split; [| reflexivity].
  apply Permutation_length in P. simpl in P. symmetry. exact P.
Qed.

(** ** What never writes *)

Lemma update_zero (vn ve : SqlValue) (va : option Z) (vg v : SqlValue)
    (d d' : Db) :
  update vn ve va vg v d = inr (d', 0) -> d' = d.
Proof.
  unfold update. destruct (filter (id_matches v) (rows d)) as [| h t].
  - intros H. inversion H. reflexivity.
  - destruct (check_not_null vn ve va vg) as [msg | [[[n e] a] g]]; [discriminate |].
    intros H. inversion H.
Qed.

Lemma reads_write_nothing (i : string) (e : Env) (s : Server) :
  db (snd (serve GET_students e s)) = db s /\
  db (snd (serve (GET_student i) e s)) = db s.
Proof.
  split; enter_handler.
  - storage_call; [reflexivity |]. inversion X; subst. reflexivity.
  - storage_call; [reflexivity |]. inversion X; subst.
    destruct (select_by_id _ _); reflexivity.
Qed.

(** X5.  The two read routes never write: whatever the engine does, a
    [GET /students] or a [GET /students/:id] leaves the table and its
    id sequence exactly as they were. *)
Theorem reads_leave_table (i : string) (e : Env) (s : Server) :
  db (snd (serve GET_students e s)) = db s /\
  db (snd (serve (GET_student i) e s)) = db s.
Proof. exact (reads_write_nothing i e s). Qed.

(** X6.  A request that is answered 400 or 404 has written nothing:
    whatever the route and whatever the engine does, the table after
    such a response is the table before. *)
Theorem refused_request_leaves_table (r : Request) (e : Env) (s : Server) :
  status (fst (serve r e s)) = 400 \/ status (fst (serve r e s)) = 404 ->
  db (snd (serve r e s)) = db s.
Proof.
  destruct r as [b | | i | i b | i]; enter_handler.
  - destruct (_ || _); simpl; [reflexivity |].
    storage_call; [reflexivity |].
    storage_call; intros [H | H]; discriminate H.
  - storage_call; [reflexivity |]. inversion X; subst. reflexivity.
  - storage_call; [reflexivity |]. inversion X; subst.
    destruct (select_by_id _ _); reflexivity.
  - destruct (_ || _); simpl; [reflexivity |].
    storage_call; [reflexivity |].
    destruct (Z.eqb_spec a 0) as [-> | Na]; simpl.
    + apply update_zero in X. subst. reflexivity.
    + storage_call; intros [H | H]; discriminate H.
  - storage_call; [reflexivity |]. inversion X; subst.
    destruct (select_by_id _ _); simpl; [| reflexivity].
    storage_call; [reflexivity |]. intros [H | H]; discriminate H.
Qed.

(** ** No error escapes a handler *)

(** X7.  No storage error escapes a route handler: for every request
    that reaches a handler of the [/students] routes, every table and
    every behaviour of the engine, the handler itself sends the response;
    what a storage call raises is caught in the handler and never passed
    on to the application's last-resort error handler. *)
Theorem no_error_escapes (r : Request) (e : Env) (s : Server) :
  exists resp c, route r (s, e) = (inr resp, c) /\ serve r e s = (resp, fst c).
Proof.
  destruct r as [b | | i | i b | i]; enter_handler.
  - destruct (_ || _); simpl; [do 2 eexists; split; reflexivity |].
    storage_call; [do 2 eexists; split; reflexivity |].
    storage_call; do 2 eexists; split; reflexivity.
  - storage_call; do 2 eexists; split; reflexivity.
  - storage_call; [do 2 eexists; split; reflexivity |].
    destruct a; simpl; do 2 eexists; split; reflexivity.
  - destruct (_ || _); simpl; [do 2 eexists; split; reflexivity |].
    storage_call; [do 2 eexists; split; reflexivity |].
    destruct (a =? 0); simpl; [do 2 eexists; split; reflexivity |].
    storage_call; do 2 eexists; split; reflexivity.
  - storage_call; [do 2 eexists; split; reflexivity |].
    destruct a; simpl; [| do 2 eexists; split; reflexivity].
    storage_call; do 2 eexists; split; reflexivity.
Qed.

(** X8.  The status codes of each route: a create answers 201, 400 or
    500; a listing 200 or 500; a fetch by id 200, 404 or 500; an update
    200, 400, 404 or 500; a delete 200, 404 or 500. *)
Theorem status_codes (r : Request) (e : Env) (s : Server) :
  let code := status (fst (serve r e s)) in
  match r with
  | POST_students _ => code = 201 \/ code = 400 \/ code = 500
  | GET_students => code = 200 \/ code = 500
  | GET_student _ => code = 200 \/ code = 404 \/ code = 500
  | PUT_student _ _ => code = 200 \/ code = 400 \/ code = 404 \/ code = 500
  | DELETE_student _ => code = 200 \/ code = 404 \/ code = 500
  end.
Proof.
  cbv zeta. destruct r as [b | | i | i b | i]; enter_handler.
  - destruct (_ || _); simpl; [tauto |].
    storage_call; [tauto |]. storage_call; tauto.
  - storage_call; tauto.
  - storage_call; [tauto |]. destruct a; simpl; tauto.
  - destruct (_ || _); simpl; [tauto |].
    storage_call; [tauto |].
    destruct (a =? 0); simpl; [tauto |]. storage_call; tauto.
  - storage_call; [tauto |]. destruct a; simpl; [| tauto].
    storage_call; tauto.
Qed.

(** ** A response of 500 after the write went through *)

Lemma storage_pass {A} (q : Statement)
    (exec : string -> Db -> string + (Db * A)) (s : Server) (e : Env)
    (t : list (option string)) :
  faults e = None :: t ->
  storage q exec (s, e) =
  match exec (now e) (db s) with
  | inl msg => (inl msg, (sent q s, advance e))
  | inr (d, a) => (inr a, (with_db d (sent q s), advance e))
  end /\
  faults (advance e) = t.
Proof.
  intros F. unfold storage, advance. rewrite F. simpl. split; reflexivity.
Qed.

(** X9.  A create is two storage calls and not one transaction: when
    the INSERT is accepted and the read-back that follows raises, the
    client is answered 500 with the read-back's error, yet the record is
    in the table, under the id the INSERT assigned. *)
Theorem create_fails_after_insert (b : ReqBody) (e : Env) (s : Server)
    (msg : string) (t : list (option string)) (d : Db) (i : Z) :
  present b = true ->
  faults e = None :: Some msg :: t ->
  insert (bind_value (body_name b)) (bind_value (body_email b))
    (parseInt (body_age b)) (bind_value (body_gender b)) (now e) (db s)
  = inr (d, i) ->
  fst (serve (POST_students b) e s) = internal_error "Failed to add student: " msg /\
  status (fst (serve (POST_students b) e s)) = 500 /\
  db (snd (serve (POST_students b) e s)) = d /\
  List.length (rows d) = S (List.length (rows (db s))) /\
  exists r, select_by_id (SInt i) d = Some r /\ In r (rows d) /\ ~ In r (rows (db s)).
Proof.
  intros P F I.
  assert (E : fst (serve (POST_students b) e s)
              = internal_error "Failed to add student: " msg /\
              db (snd (serve (POST_students b) e s)) = d).
  { enter_handler. rewrite validation_test, P. simpl.
    destruct (storage_pass
                (InsertStudent (bind_value (body_name b)) (bind_value (body_email b))
                   (parseInt (body_age b)) (bind_value (body_gender b)))
                (fun t0 d0 =>
                   insert (bind_value (body_name b)) (bind_value (body_email b))
                     (parseInt (body_age b)) (bind_value (body_gender b)) t0 d0)
                s e _ F) as [R F'].
    rewrite R, I. rewrite (storage_fault _ _ _ _ _ _ F'). simpl. split; reflexivity. }
  destruct E as [E1 E2]. rewrite E1, E2.
  split; [reflexivity |]. split; [reflexivity |]. split; [reflexivity |].
  destruct (select_inserted _ _ _ _ _ _ _ _ I) as (r & S & Ri & Rr).
  pose proof (insert_fresh _ _ _ _ _ _ _ _ I) as [_ Fr].
  split.
  - rewrite Rr, length_app. simpl. lia.
  - exists r. split; [exact S |]. split.
    + rewrite Rr. apply in_or_app. right. left. reflexivity.
    + intros Hin. specialize (Fr r Hin). lia.
Qed.

(** X10.  The same for an update: when the UPDATE has changed a row
    and the read-back raises, the client is answered 500 and the row
    stays changed. *)
Theorem update_fails_after_write (i : string) (b : ReqBody) (e : Env)
    (s : Server) (msg : string) (t : list (option string)) (d : Db) (c : Z) :
  present b = true ->
  faults e = None :: Some msg :: t ->
  update (bind_value (body_name b)) (bind_value (body_email b))
    (parseInt (body_age b)) (bind_value (body_gender b)) (SText i) (db s)
  = inr (d, c) ->
  c <> 0 ->
  fst (serve (PUT_student i b) e s) = internal_error "Failed to update student: " msg /\
  status (fst (serve (PUT_student i b) e s)) = 500 /\
  db (snd (serve (PUT_student i b) e s)) = d.
Proof.
  intros P F U C.
  assert (E : fst (serve (PUT_student i b) e s)
              = internal_error "Failed to update student: " msg /\
              db (snd (serve (PUT_student i b) e s)) = d).
  { enter_handler. rewrite validation_test, P. simpl.
    destruct (storage_pass
                (UpdateStudent (bind_value (body_name b)) (bind_value (body_email b))
                   (parseInt (body_age b)) (bind_value (body_gender b)) (SText i))
                (fun _ d0 =>
                   update (bind_value (body_name b)) (bind_value (body_email b))
                     (parseInt (body_age b)) (bind_value (body_gender b)) (SText i) d0)
                s e _ F) as [R F'].
    rewrite R, U. apply Z.eqb_neq in C. rewrite C.
    rewrite (storage_fault _ _ _ _ _ _ F'). simpl. split; reflexivity. }
  destruct E as [E1 E2]. rewrite E1, E2. repeat split; reflexivity.
Qed.

(** ** An update sent twice *)

Lemma overwrite_twice (v : SqlValue) (n e : string) (a : Z) (g : string)
    (r : Student) :
  overwrite v n e a g (overwrite v n e a g r) = overwrite v n e a g r.
Proof.
  unfold overwrite at 1.
  rewrite (id_matches_by_id v _ r (overwrite_id v n e a g r)).
  unfold overwrite. destruct (id_matches v r); reflexivity.
Qed.

Lemma filter_overwrite (v : SqlValue) (n e : string) (a : Z) (g : string)
    (l : list Student) :
  filter (id_matches v) (map (overwrite v n e a g) l) =
  map (overwrite v n e a g) (filter (id_matches v) l).
Proof.
  induction l as [| r t IH]; simpl; [reflexivity |].
  rewrite (id_matches_by_id v _ r (overwrite_id v n e a g r)).
  destruct (id_matches v r); simpl; rewrite IH; reflexivity.
Qed.

Lemma update_again (vn ve : SqlValue) (va : option Z) (vg v : SqlValue)
    (d d1 : Db) (c : Z) :
  update vn ve va vg v d = inr (d1, c) ->
  update vn ve va vg v d1 = inr (d1, c).
Proof.
  unfold update.
  destruct (filter (id_matches v) (rows d)) as [| h t] eqn:Hits.
  - intros H. inversion H; subst. rewrite Hits. reflexivity.
  - destruct (check_not_null vn ve va vg) as [msg | [[[n e] a] g]]; [discriminate |].
    intros H. inversion H; subst. clear H. simpl.
    rewrite filter_overwrite, Hits. simpl.
    rewrite length_map. f_equal. f_equal. f_equal.
    rewrite map_map. apply map_ext. intros r. apply overwrite_twice.
Qed.

(** X11.  [PUT /students/:id] is idempotent: sending the same update a
    second time, the engine raising no error either time, gets the same
    response as the first time and leaves the table as the first request
    left it, whether that response was 200, 400, 404 or 500. *)
Theorem put_twice (i : string) (b : ReqBody) (e1 e2 : Env) (s : Server) :
  healthy e1 = true ->
  healthy e2 = true ->
  let once := serve (PUT_student i b) e1 s in
  let twice := serve (PUT_student i b) e2 (snd once) in
  fst twice = fst once /\ db (snd twice) = db (snd once).
Proof.
  intros H1 H2. cbv zeta.
  destruct (present b) eqn:P.
  - destruct (put_outcome i b e1 s P H1) as [R1 D1].
    destruct (put_outcome i b e2 (snd (serve (PUT_student i b) e1 s)) P H2)
      as [R2 D2].
    cbv zeta in *. rewrite R2, D2, R1, D1.
    destruct (update _ _ _ _ _ (db s)) as [msg | [d c]] eqn:U.
    + rewrite U. split; reflexivity.
    + rewrite (update_again _ _ _ _ _ _ _ _ U). split; reflexivity.
  - rewrite (put_rejected i b e1 s P). simpl.
    rewrite (put_rejected i b e2 s P). split; reflexivity.
Qed.

(** ** A create and the listing *)

Lemma order_by_newest (l : list Student) (r : Student) :
  (forall x, In x l -> id x < id r) ->
  fold_right insert_desc [] (l ++ [r]) = r :: fold_right insert_desc [] l.
Proof.
  intros F. rewrite fold_right_app. simpl.
  induction l as [| x t IH]; simpl; [reflexivity |].
  rewrite IH by (intros y Hy; apply F; right; exact Hy). simpl.
  assert (L : id x < id r) by (apply F; left; reflexivity).
  destruct (Z.leb_spec (id r) (id x)); [lia | reflexivity].
Qed.

(** X12.  The record just created comes first in the listing: when
    [POST /students] answers 201 with a record, the [GET /students] that
    follows returns that record at the head, followed by exactly the list
    that a [GET /students] would have returned before the create (both
    listings served while the engine raises no error). *)
Theorem created_record_heads_listing (b : ReqBody) (e e1 e2 : Env) (s : Server)
    (r : Student) :
  fst (serve (POST_students b) e s) = res_json 201 (JsonStudent r) ->
  healthy e1 = true ->
  healthy e2 = true ->
  exists l,
    fst (serve GET_students e1 s) = res_json 200 (JsonStudents l) /\
    fst (serve GET_students e2 (snd (serve (POST_students b) e s)))
    = res_json 200 (JsonStudents (r :: l)).
Proof.
  intros C H1 H2. destruct (post_201 _ _ _ _ C) as (d & I & D & S).
  exists (select_all_desc (db s)).
  destruct (list_outcome e1 s H1) as [L1 _].
  destruct (list_outcome e2 (snd (serve (POST_students b) e s)) H2) as [L2 _].
  split; [exact L1 |]. rewrite L2, D.
  destruct (select_inserted _ _ _ _ _ _ _ _ I) as (r0 & S0 & Ri & Rr).
  rewrite S in S0. inversion S0; subst r0. clear S0.
  pose proof (insert_fresh _ _ _ _ _ _ _ _ I) as [_ Fr].
  unfold select_all_desc. rewrite Rr, (order_by_newest _ _ Fr). reflexivity.
Qed.

(** ** How the age is read *)

Lemma insert_accepted (vn ve vg : JValue) (a : Z) (t : string) (d : Db) :
  truthy vn = true -> truthy ve = true -> truthy vg = true ->
  Z.max (seq d) (largest_id (rows d)) < max_rowid ->
  exists d' r,
    insert (bind_value vn) (bind_value ve) (Some a) (bind_value vg) t d
    = inr (d', id r) /\
    select_by_id (SInt (id r)) d' = Some r /\
    age r = a /\
    text_column (bind_value vn) = Some (name r) /\
    text_column (bind_value ve) = Some (email r) /\
    text_column (bind_value vg) = Some (gender r).
Proof.
  intros Hn He Hg Full.
  destruct (truthy_is_stored vn Hn) as [n Tn].
  destruct (truthy_is_stored ve He) as [m Tm].
  destruct (truthy_is_stored vg Hg) as [g Tg].
  assert (I : insert (bind_value vn) (bind_value ve) (Some a) (bind_value vg) t d =
    inr ({| rows := (rows d ++
              [{| id := Z.max (seq d) (largest_id (rows d)) + 1; name := n;
                  email := m; age := a; gender := g; created_at := t |}])%list;
            seq := Z.max (seq d) (largest_id (rows d)) + 1 |},
         Z.max (seq d) (largest_id (rows d)) + 1)).
  { unfold insert, check_not_null. apply Z.leb_gt in Full.
    rewrite Full, Tn, Tm, Tg. reflexivity. }
  destruct (select_inserted _ _ _ _ _ _ _ _ I) as (r & S & Ri & Rr).
  simpl in Rr. apply app_inj_tail in Rr. destruct Rr as [_ Rr]. subst r.
  eexists.
  exists {| id := Z.max (seq d) (largest_id (rows d)) + 1; name := n;
            email := m; age := a; gender := g; created_at := t |}.
  split; [exact I |]. simpl. repeat split; assumption.
Qed.

(** X13.  An age sent as a JSON number of the safe-integer range, as
    the client sends it when a record is edited without touching the
    age, is stored as that number:
    [parseInt] prints it and reads it back unchanged.  With the other
    fields present, room left in the id sequence and the engine raising
    no error, the create answers 201 with exactly that age. *)
Theorem numeric_age_stored (b : ReqBody) (e : Env) (s : Server) (k : Z) :
  present b = true ->
  body_age b = JNum k ->
  safe_integer k = true ->
  healthy e = true ->
  Z.max (seq (db s)) (largest_id (rows (db s))) < max_rowid ->
  exists r,
    fst (serve (POST_students b) e s) = res_json 201 (JsonStudent r) /\
    age r = k.
Proof.
  intros P A Sk H Full. destruct (present_fields b P) as (Hn & Hm & _ & Hg).
  destruct (insert_accepted _ _ _ k (now e) (db s) Hn Hm Hg Full)
    as (d & r & I & S & Ar & _).
  destruct (post_outcome b e s P H) as [R _]. cbv zeta in R.
  unfold parseInt in R at 1. rewrite A in R.
  change (parseInt_string (ToString (JNum k))) with (parseInt (JNum k)) in R.
  rewrite parseInt_number, I, S in R.
  exists r. split; [exact R | exact Ar].
Qed.

(** X14.  Text after the number is dropped without a word: an age
    string made of an integer of the safe range in decimal followed by
    anything that does not begin with a digit (["21 years"], ["21.9"],
    ["21abc"]) passes the presence check and is stored as that integer;
    the create answers 201, not 400. *)
Theorem age_suffix_dropped (b : ReqBody) (e : Env) (s : Server) (k : Z)
    (rest : string) :
  truthy (body_name b) = true ->
  truthy (body_email b) = true ->
  truthy (body_gender b) = true ->
  body_age b = JStr (number_to_string k ++ rest) ->
  starts_with_digit rest = false ->
  safe_integer k = true ->
  healthy e = true ->
  Z.max (seq (db s)) (largest_id (rows (db s))) < max_rowid ->
  exists r,
    fst (serve (POST_students b) e s) = res_json 201 (JsonStudent r) /\
    age r = k.
Proof.
  intros Hn Hm Hg A R Sk H Full.
  assert (Pa : parseInt (body_age b) = Some k).
  { rewrite A. apply parseInt_number_suffix, R. }
  assert (P : present b = true).
  { unfold present. rewrite Hn, Hm, Hg, A. rewrite A in Pa.
    destruct (number_to_string k ++ rest)%string; [discriminate Pa | reflexivity]. }
  destruct (insert_accepted _ _ _ k (now e) (db s) Hn Hm Hg Full)
    as (d & r & I & S & Ar & _).
  destruct (post_outcome b e s P H) as [Ro _]. cbv zeta in Ro.
  rewrite Pa, I, S in Ro.
  exists r. split; [exact Ro | exact Ar].
Qed.

(** ** The health check *)

(** X15.  The health check counts what the listing lists: served while
    the engine raises no error, [GET /health] answers 200 with status
    ok, the clock's timestamp, and a [studentCount] equal to the number
    of records that [GET /students] returns in the same state. *)
Theorem health_counts_listing (iso : string) (e e' : Env) (s : Server) :
  healthy e = true ->
  healthy e' = true ->
  exists l,
    fst (serve GET_students e' s) = res_json 200 (JsonStudents l) /\
    Health.get_health iso (s, e) =
    (inr {| Health.health_status := 200;
            Health.health_body := Health.HealthOk iso (Z.of_nat (List.length l)) |},
     (s, advance e)).
Proof.
  intros H H'. exists (select_all_desc (db s)).
  destruct (list_outcome e' s H') as [L _]. split; [exact L |].
  unfold Health.get_health, try_catch, bind, Health.db_get_count, ret.
  assert (C : List.length (select_all_desc (db s)) = List.length (rows (db s))).
  { apply Permutation_length, order_by_perm. }
  rewrite C. unfold healthy in H.
  destruct (faults e) as [| [msg |] t]; simpl in H; try discriminate; reflexivity.
Qed.

(** X16.  The health check touches nothing, and reports an error in its
    own way: whatever the engine does, the process is left exactly as it
    was (nothing written, nothing printed on the console); and when the
    engine raises, the answer is 500 with status error and the engine's
    message as it is, with no text before it. *)
Theorem health_touches_nothing (iso : string) (e : Env) (s : Server) :
  exists resp,
    Health.get_health iso (s, e) = (inr resp, (s, advance e)) /\
    (Health.health_status resp = 200 \/ Health.health_status resp = 500) /\
    forall msg t,
      faults e = Some msg :: t ->
      resp = {| Health.health_status := 500;
                Health.health_body := Health.HealthError msg |}.
Proof.
  unfold Health.get_health, try_catch, bind, Health.db_get_count, ret.
  destruct (faults e) as [| [msg |] t] eqn:F; eexists;
    (split; [reflexivity |]); simpl; (split; [tauto |]);
    intros m t' E; inversion E; reflexivity.
Qed.

(** ** Stopping and starting again *)

Lemma initialized_on_file (d : Db) (e : Env) (s : Server) :
  Startup.initializeDatabase (Some d) e = inr s -> db s = d.
Proof.
  unfold Startup.initializeDatabase.
  destruct (faults e) as [| [m |] t]; [| discriminate |];
    destruct (faults (advance e)) as [| [m' |] t']; try discriminate;
    intros H; inversion H; reflexivity.
Qed.

Lemma initialized_new (e : Env) (s : Server) :
  Startup.initializeDatabase None e = inr s -> s = start.
Proof.
  unfold Startup.initializeDatabase.
  destruct (faults e) as [| [m |] t]; [| discriminate |];
    destruct (faults (advance e)) as [| [m' |] t']; try discriminate;
    intros H; inversion H; reflexivity.
Qed.

Lemma later_key (s s' : Server) :
  Startup.later s s' ->
  NoDup (map id (rows (db s))) -> NoDup (map id (rows (db s'))).
Proof.
  induction 1 as [| r e s1 L IH | e s1 s2 L IH I]; intros N.
  - exact N.
  - apply (effect_keeps_key (db s1)); [apply serve_effect | apply IH, N].
  - rewrite (initialized_on_file _ _ _ I). apply IH, N.
Qed.

Lemma later_seq (s s' : Server) :
  Startup.later s s' -> seq (db s) <= seq (db s').
Proof.
  induction 1 as [| r e s1 L IH | e s1 s2 L IH I].
  - lia.
  - pose proof (effect_seq _ _ (serve_effect r e s1)). lia.
  - rewrite (initialized_on_file _ _ _ I). exact IH.
Qed.

(** X17.  Ids survive restarts.  In every state of a deployment that
    began on a new database file, however often the process was stopped
    and started again on that file between requests, no two records have
    the same id, and an id that a create has assigned is never assigned
    again: any later create, after any requests and restarts, gets a
    strictly larger id. *)
Theorem ids_survive_restarts (s : Server) :
  Startup.deployed s ->
  NoDup (map id (rows (db s))) /\
  forall b e i s' b' e' j,
    created_id (fst (serve (POST_students b) e s)) = Some i ->
    Startup.later (snd (serve (POST_students b) e s)) s' ->
    created_id (fst (serve (POST_students b') e' s')) = Some j ->
    i < j.
Proof.
  intros (e0 & s0 & I & L). apply initialized_new in I. subst s0.
  split.
  - apply (later_key start s L). constructor.
  - intros b e i s' b' e' j Hi La Hj.
    apply post_created in Hi. destruct Hi as (_ & Si & _).
    apply post_created in Hj. destruct Hj as (Sj & _).
    pose proof (later_seq _ _ La). lia.
Qed.

(** ** Responses that mean nothing was written *)

Lemma failure_writes_nothing (r : Request) (e : Env) (s : Server) :
  healthy e = true ->
  status (fst (serve r e s)) <> 200 ->
  status (fst (serve r e s)) <> 201 ->
  db (snd (serve r e s)) = db s.
Proof.
  intros H N200 N201.
  destruct r as [b | | i | i b | i].
  - destruct (present b) eqn:P; [| rewrite (post_rejected b e s P); reflexivity].
    destruct (post_outcome b e s P H) as [R D]. cbv zeta in R, D.
    rewrite D. rewrite R in N201.
    destruct (insert _ _ _ _ _ _) as [msg | [d k]]; [reflexivity |].
    exfalso. apply N201. reflexivity.
  - apply (reads_write_nothing "" e s).
  - apply (reads_write_nothing i e s).
  - destruct (present b) eqn:P; [| rewrite (put_rejected i b e s P); reflexivity].
    destruct (put_outcome i b e s P H) as [R D]. cbv zeta in R, D.
    rewrite D. rewrite R in N200.
    destruct (update _ _ _ _ _ _) as [msg | [d c]] eqn:U; [reflexivity |].
    destruct (Z.eqb_spec c 0) as [-> | Nc].
    + apply update_zero in U. exact U.
    + exfalso. apply N200. reflexivity.
  - destruct (delete_outcome i e s H) as [R D]. rewrite D. rewrite R in N200.
    destruct (select_by_id (SText i) (db s)); [| reflexivity].
    exfalso. apply N200. reflexivity.
Qed.

(** X18.  With an engine that raises nothing of its own accord, only a
    200 or a 201 goes with a change of the table: after any other
    response, a 500 for a failed constraint included, the table is
    exactly as it was before the request. *)
Theorem failure_leaves_table (r : Request) (e : Env) (s : Server) :
  healthy e = true ->
  status (fst (serve r e s)) <> 200 ->
  status (fst (serve r e s)) <> 201 ->
  db (snd (serve r e s)) = db s.
Proof. exact (failure_writes_nothing r e s). Qed.

(** ** The client *)

Lemma axios_cases (r : Request) (n : Client.Net) (srv : Server) :
  (exists data,
      Client.axios r n srv = (Some data, snd (serve r (Client.engine n) srv)) /\
      Client.online n = true /\
      data = body (fst (serve r (Client.engine n) srv)) /\
      200 <= status (fst (serve r (Client.engine n) srv)) < 300) \/
  (Client.axios r n srv = (None, srv) /\ Client.online n = false) \/
  (Client.axios r n srv = (None, snd (serve r (Client.engine n) srv)) /\
   Client.online n = true /\
   ~ 200 <= status (fst (serve r (Client.engine n) srv)) < 300).
Proof.
  unfold Client.axios. destruct (Client.online n); [| right; left; auto].
  destruct (Z.leb_spec 200 (status (fst (serve r (Client.engine n) srv))));
    destruct (Z.ltb_spec (status (fst (serve r (Client.engine n) srv))) 300);
    simpl; first [ left; eexists; repeat split; (reflexivity || lia)
                 | right; right; repeat split; lia ].
Qed.

Lemma calm_net_parts (n : Client.Net) :
  Client.calm_net n = true ->
  Client.online n = true /\ healthy (Client.engine n) = true.
Proof. unfold Client.calm_net. intros H. apply andb_true_iff in H. exact H. Qed.

Lemma fetch_calm (n : Client.Net) (p : Client.Page) (srv : Server) :
  Client.calm_net n = true ->
  Client.fetchStudents n (p, srv) =
  (Client.setIsLoading false
     (Client.setStudents (JsonStudents (select_all_desc (db srv)))
        (Client.setError None (Client.setIsLoading true p))),
   snd (serve GET_students (Client.engine n) srv)) /\
  db (snd (serve GET_students (Client.engine n) srv)) = db srv.
Proof.
  intros C. destruct (calm_net_parts n C) as [On He].
  destruct (list_outcome (Client.engine n) srv He) as [L D].
  split; [| exact D].
  unfold Client.fetchStudents, Client.axios. simpl fst. simpl snd.
  rewrite On, L. reflexivity.
Qed.

Lemma submit_resolved (n1 n2 : Client.Net) (p : Client.Page) (srv : Server)
    (data : Json) :
  fst (Client.axios (Client.submit_request p) n1 srv) = Some data ->
  Client.calm_net n2 = true ->
  let w := Client.handleSubmit n1 n2 (p, srv) in
  Client.form (fst w) = Client.empty_form /\
  Client.editId (fst w) = None /\
  Client.isLoading (fst w) = false /\
  Client.error (fst w) = None /\
  Client.in_sync w /\
  db (snd w) = db (snd (serve (Client.submit_request p) (Client.engine n1) srv)).
Proof.
  intros A C. cbv zeta. unfold Client.handleSubmit. simpl fst. simpl snd.
  destruct (axios_cases (Client.submit_request p) n1 srv)
    as [(d & E & _) | [[E _] | [E _]]]; rewrite E in A; try discriminate A.
  rewrite E.
  match goal with
  | |- context [Client.fetchStudents n2 (?q, ?v)] =>
      destruct (fetch_calm n2 q v C) as [F D]; rewrite F
  end.
  unfold Client.in_sync. simpl. rewrite D. repeat split; reflexivity.
Qed.

(** X19.  When the create or update of the form is accepted, the page
    is reset and reloaded: the form is emptied, edit mode is left, the
    busy flag is down and, the listing that follows getting through to a
    healthy engine, no banner shows and the list on the page is the
    listing of the table as the request left it. *)
Theorem submit_accepted (n1 n2 : Client.Net) (p : Client.Page) (srv : Server)
    (data : Json) :
  fst (Client.axios (Client.submit_request p) n1 srv) = Some data ->
  Client.calm_net n2 = true ->
  let w := Client.handleSubmit n1 n2 (p, srv) in
  Client.form (fst w) = Client.empty_form /\
  Client.editId (fst w) = None /\
  Client.isLoading (fst w) = false /\
  Client.error (fst w) = None /\
  Client.in_sync w /\
  db (snd w) = db (snd (serve (Client.submit_request p) (Client.engine n1) srv)).
Proof. exact (submit_resolved n1 n2 p srv data). Qed.

(** X20.  When the create or update of the form is refused, or does not
    get through, nothing on the page is lost: the form keeps what was
    typed, edit mode stays as it was, the list is not reloaded, the busy
    flag is down, and the banner shows the fixed text for the action. *)
Theorem submit_refused (n1 n2 : Client.Net) (p : Client.Page) (srv : Server) :
  fst (Client.axios (Client.submit_request p) n1 srv) = None ->
  let w := Client.handleSubmit n1 n2 (p, srv) in
  Client.form (fst w) = Client.form p /\
  Client.editId (fst w) = Client.editId p /\
  Client.students (fst w) = Client.students p /\
  Client.isLoading (fst w) = false /\
  Client.error (fst w) = Some (Client.submit_failed p) /\
  (Client.submit_failed p = "Failed to add student. Please try again." \/
   Client.submit_failed p = "Failed to update student. Please try again.").
Proof.
  intros A. cbv zeta. unfold Client.handleSubmit. simpl fst. simpl snd.
  destruct (Client.axios (Client.submit_request p) n1 srv) as [[d |] srv'];
    [discriminate A |].
  simpl. repeat split.
  unfold Client.submit_failed. destruct (Client.editing p); [right | left]; reflexivity.
Qed.

Lemma fetch_banner (n : Client.Net) (w : Client.Page * Server) :
  Client.generic_banner (fst (Client.fetchStudents n w)).
Proof.
  unfold Client.fetchStudents, Client.generic_banner.
  destruct (Client.axios GET_students n (snd w)) as [[d |] srv]; simpl; tauto.
Qed.

Lemma perform_banner (a : Client.Action) (w : Client.Page * Server) :
  Client.generic_banner (fst w) ->
  Client.generic_banner (fst (Client.perform a w)).
Proof.
  intros G. destruct a; simpl; try exact G.
  - apply fetch_banner.
  - unfold Client.handleSubmit.
    destruct (Client.axios _ n1 (snd w)) as [[d |] srv].
    + pose proof (fetch_banner n2
        (Client.setEditId None
           (Client.setForm Client.empty_form
              (Client.setError None (Client.setIsLoading true (fst w)))), srv)) as F.
      unfold Client.generic_banner in *. simpl. exact F.
    + unfold Client.generic_banner, Client.submit_failed. simpl.
      destruct (Client.editing (fst w)); tauto.
  - unfold Client.handleDelete. destruct confirmed; [| exact G].
    destruct (Client.axios _ n1 (snd w)) as [[d |] srv].
    + pose proof (fetch_banner n2
        (Client.setError None (Client.setIsLoading true (fst w)), srv)) as F.
      unfold Client.generic_banner in *. simpl. exact F.
    + unfold Client.generic_banner. simpl. tauto.
Qed.

(** X21.  The banner never shows what the server said: starting from
    the first render, after any sequence of actions, against any server
    state, with any failures of the network and of the engine, the error
    on the page is absent or is one of four fixed texts. *)
Theorem banner_is_generic (actions : list Client.Action) (srv : Server) :
  Client.generic_banner
    (fst (fold_left (fun w a => Client.perform a w) actions
            (Client.first_render, srv))).
Proof.
  assert (G : forall l w, Client.generic_banner (fst w) ->
              Client.generic_banner
                (fst (fold_left (fun w a => Client.perform a w) l w))).
  { induction l as [| a t IH]; intros w Gw; simpl; [exact Gw |].
    apply IH, perform_banner, Gw. }
  apply G. left. reflexivity.
Qed.

Lemma axios_none_calm (r : Request) (n : Client.Net) (srv srv' : Server) :
  Client.calm_net n = true ->
  Client.axios r n srv = (None, srv') ->
  db srv' = db srv.
Proof.
  intros C A. destruct (calm_net_parts n C) as [On He].
  destruct (axios_cases r n srv) as [(d & E & _) | [[E Off] | (E & _ & S)]];
    rewrite E in A.
  - discriminate A.
  - congruence.
  - inversion A. apply failure_writes_nothing; [exact He | lia | lia].
Qed.

(** X22.  One client on a healthy system always shows the table.  When
    every request of an action gets through and the engine raises no
    error, loading the page puts the listing of the table on the page,
    and every action after that (typing, submitting, editing, cancelling,
    deleting or declining to) leaves the page showing the listing of the
    table as it then is, whether the server accepted the action or
    refused it. *)
Theorem page_shows_table (a : Client.Action) (w : Client.Page * Server) :
  Client.calm_action a = true ->
  (Client.in_sync w -> Client.in_sync (Client.perform a w)) /\
  (forall n, a = Client.Load n -> Client.in_sync (Client.perform a w)).
Proof.
  intros C.
  assert (L : forall n p srv, Client.calm_net n = true ->
              Client.in_sync (Client.fetchStudents n (p, srv)) /\
              Client.in_sync
                (Client.setIsLoading false (fst (Client.fetchStudents n (p, srv))),
                 snd (Client.fetchStudents n (p, srv)))).
  { intros n p srv Cn. destruct (fetch_calm n p srv Cn) as [F D].
    rewrite F. unfold Client.in_sync. simpl. rewrite D. split; reflexivity. }
  destruct w as [p srv]. split.
  - intros S. destruct a; simpl in *; try exact S.
    + apply L, C.
    + apply andb_true_iff in C. destruct C as [C1 C2].
      unfold Client.handleSubmit. simpl fst. simpl snd.
      destruct (Client.axios _ n1 srv) as [[d |] srv'] eqn:A.
      * apply L, C2.
      * apply (axios_none_calm _ _ _ _ C1) in A.
        unfold Client.in_sync in *. simpl in *. rewrite A. exact S.
    + apply andb_true_iff in C. destruct C as [C1 C2].
      unfold Client.handleDelete. destruct confirmed; [| exact S].
      simpl fst. simpl snd.
      destruct (Client.axios _ n1 srv) as [[d |] srv'] eqn:A.
      * apply L, C2.
      * apply (axios_none_calm _ _ _ _ C1) in A.
        unfold Client.in_sync in *. simpl in *. rewrite A. exact S.
  - intros n ->. simpl in *. apply L, C.
Qed.

(** ** Editing a record and saving it as it is *)

Lemma overwrite_same (v : SqlValue) (l : list Student) (r : Student) :
  NoDup (map id l) ->
  In r l ->
  (forall x, id_matches v x = (id x =? id r)) ->
  map (overwrite v (name r) (email r) (age r) (gender r)) l = l.
Proof.
  intros N Hin M. rewrite <- (map_id l) at 2. apply map_ext_in.
  intros x Hx. unfold overwrite. rewrite M.
  destruct (Z.eqb_spec (id x) (id r)) as [E | E]; [| reflexivity].
  assert (X : x = r).
  { apply In_nth_error in Hx, Hin. destruct Hx as [k1 K1], Hin as [k2 K2].
    assert (K : k1 = k2).
    { apply (proj1 (NoDup_nth_error (map id l)) N).
      - rewrite length_map. apply nth_error_Some. rewrite K1. discriminate.
      - rewrite !nth_error_map, K1, K2. simpl. rewrite E. reflexivity. }
    subst k2. rewrite K1 in K2. inversion K2. reflexivity. }
  subst x. destruct r; reflexivity.
Qed.

Lemma not_empty_truthy (t : string) : t <> "" -> truthy (JStr t) = true.
Proof. intros N. simpl. apply String.eqb_neq in N. rewrite N. reflexivity. Qed.

(** X23.  Edit, then save without a change, changes nothing.  For a
    record of the table with non-empty name, email and gender and an age
    and an id other than 0, both of the safe-integer range: pressing Edit on it and submitting the form
    as it was filled in sends an update that the server accepts and that
    leaves the table exactly as it was; the page comes back to an empty
    form, out of edit mode, without a banner, showing the listing.  (The
    table respects its key, the requests get through to a healthy
    engine, and the engine reads the id's decimal text as the id.) *)
Theorem edit_then_save_unchanged (n1 n2 : Client.Net) (p : Client.Page)
    (srv : Server) (r : Student) :
  In r (rows (db srv)) ->
  NoDup (map id (rows (db srv))) ->
  id r <> 0 -> age r <> 0 ->
  safe_integer (id r) = true -> safe_integer (age r) = true ->
  name r <> "" -> email r <> "" -> gender r <> "" ->
  text_as_integer (number_to_string (id r)) = Some (id r) ->
  Client.calm_net n1 = true ->
  Client.calm_net n2 = true ->
  let w := Client.handleSubmit n1 n2 (Client.handleEdit r p, srv) in
  db (snd w) = db srv /\
  Client.error (fst w) = None /\
  Client.form (fst w) = Client.empty_form /\
  Client.editId (fst w) = None /\
  Client.in_sync w.
Proof.
  intros Hin N Ni Na Si Sa Nn Nm Ng T C1 C2.
  destruct (calm_net_parts n1 C1) as [On He].
  set (q := Client.handleEdit r p).
  set (f := {| body_name := JStr (name r); body_email := JStr (email r);
               body_age := JNum (age r); body_gender := JStr (gender r) |}).
  assert (Rq : Client.submit_request q = PUT_student (number_to_string (id r)) f).
  { unfold Client.submit_request, q, Client.handleEdit. simpl.
    apply Z.eqb_neq in Ni. rewrite Ni. reflexivity. }
  assert (P : present f = true).
  { unfold present, f. simpl body_name. simpl body_email. simpl body_age.
    simpl body_gender.
    rewrite !not_empty_truthy by assumption. simpl.
    apply Z.eqb_neq in Na. rewrite Na. reflexivity. }
  assert (M : forall x, id_matches (SText (number_to_string (id r))) x
                        = (id x =? id r)).
  { intros x. simpl. rewrite T. reflexivity. }
  assert (S : exists r', select_by_id (SText (number_to_string (id r))) (db srv)
                         = Some r').
  { unfold select_by_id.
    destruct (find _ (rows (db srv))) as [r' |] eqn:F; [eauto |].
    pose proof (find_none _ _ F r Hin) as X. rewrite M, Z.eqb_refl in X.
    discriminate X. }
  destruct S as [r' S].
  assert (Ck : check_not_null (bind_value (body_name f)) (bind_value (body_email f))
                 (parseInt (body_age f)) (bind_value (body_gender f))
               = inr (name r, email r, age r, gender r)).
  { unfold f. simpl body_age. rewrite parseInt_number. reflexivity. }
  destruct (update_hit _ _ _ _ _ _ _ _ _ _ _ S Ck) as (c & Hc & U).
  rewrite (overwrite_same _ _ r N Hin M) in U.
  assert (Dsame : {| rows := rows (db srv); seq := seq (db srv) |} = db srv)
    by (destruct (db srv); reflexivity).
  rewrite Dsame in U.
  destruct (put_outcome (number_to_string (id r)) f (Client.engine n1) srv P He)
    as [R D]. cbv zeta in R, D. rewrite U in R, D.
  replace (c =? 0) with false in R by (symmetry; apply Z.eqb_neq; lia).
  assert (A : exists data,
             Client.axios (Client.submit_request q) n1 srv =
             (Some data, snd (serve (Client.submit_request q) (Client.engine n1) srv))).
  { destruct (axios_cases (Client.submit_request q) n1 srv)
      as [(d & E & _) | [[_ Off] | (_ & _ & Bad)]]; [eauto | congruence |].
    exfalso. apply Bad. rewrite Rq, R. simpl. lia. }
  destruct A as [data A].
  assert (A1 : fst (Client.axios (Client.submit_request q) n1 srv) = Some data)
    by (rewrite A; reflexivity).
  pose proof (submit_resolved n1 n2 q srv data A1 C2) as G. cbv zeta in G.
  destruct G as (G1 & G2 & _ & G4 & G5 & G6).
  cbv zeta. rewrite G6, Rq, D. auto.
Qed.

(** X24.  A record whose age is 0 cannot be saved from the edit form.
    Edit puts the age into the form as the number 0, which the presence
    check of the server takes as missing: whatever the network and the
    engine do, submitting the form after Edit on such a record ends with
    the update-failed banner, the form still filled in and in edit mode,
    and the table as it was. *)
Theorem zero_age_not_saved (n1 n2 : Client.Net) (p : Client.Page)
    (srv : Server) (r : Student) :
  age r = 0 ->
  id r <> 0 ->
  let w := Client.handleSubmit n1 n2 (Client.handleEdit r p, srv) in
  Client.error (fst w) = Some "Failed to update student. Please try again." /\
  Client.editId (fst w) = Some (id r) /\
  Client.form (fst w) = Client.form (Client.handleEdit r p) /\
  db (snd w) = db srv.
Proof.
  intros Za Ni. cbv zeta.
  set (q := Client.handleEdit r p).
  set (f := {| body_name := JStr (name r); body_email := JStr (email r);
               body_age := JNum (age r); body_gender := JStr (gender r) |}).
  assert (Ed : Client.editing q = true).
  { unfold Client.editing, q, Client.handleEdit. simpl.
    apply Z.eqb_neq in Ni. rewrite Ni. reflexivity. }
  assert (Rq : Client.submit_request q = PUT_student (number_to_string (id r)) f).
  { unfold Client.submit_request, q, Client.handleEdit. simpl.
    apply Z.eqb_neq in Ni. rewrite Ni. reflexivity. }
  assert (P : present f = false).
  { unfold present, f. simpl body_age. rewrite Za. simpl.
    rewrite andb_false_r. reflexivity. }
  assert (A : Client.axios (Client.submit_request q) n1 srv = (None, srv)).
  { rewrite Rq. unfold Client.axios. destruct (Client.online n1); [| reflexivity].
    rewrite (put_rejected _ f (Client.engine n1) srv P). reflexivity. }
  unfold Client.handleSubmit. simpl fst. simpl snd. rewrite A. simpl.
  unfold Client.submit_failed. rewrite Ed. repeat split; reflexivity.
Qed.

End Properties.

(** * The handlers at work *)

Section Runs.
Import Sample.
#[local] Existing Instance decimal_text.

(** The scenario of the specification, step by step. *)
Example scenario_create :
  fst (serve (POST_students ana) calm start) = res_json 201 (JsonStudent ana_row).
Proof. reflexivity. Qed.

Example scenario_list :
  fst (serve GET_students calm one_student) = res_json 200 (JsonStudents [ana_row]).
Proof. reflexivity. Qed.

Example scenario_update :
  fst (serve (PUT_student "1" ana_b) calm one_student) =
  res_json 200
    (JsonStudent {| id := 1; name := "Ana B"; email := "a@x.com"; age := 22;
                    gender := "Female"; created_at := clock |}).
Proof. reflexivity. Qed.

Example scenario_delete_then_get :
  fst (serve (DELETE_student "1") calm one_student) = res_json 200 (JsonStudent ana_row) /\
  fst (serve (GET_student "1") calm (snd (serve (DELETE_student "1") calm one_student)))
  = not_found "1".
Proof. split; reflexivity. Qed.

Example parseInt_examples :
  parseInt (JStr "21") = Some 21 /\ parseInt (JNum 22) = Some 22 /\
  parseInt (JStr "21 years") = Some 21 /\ parseInt (JStr "  -5x") = Some (-5) /\
  parseInt (JStr "abc") = None /\ parseInt (JStr " ") = None /\
  parseInt (JBool true) = None /\ parseInt (JStr "-") = None.
Proof. repeat split; reflexivity. Qed.

(** A text submitted as a number or a boolean is kept in text form by
    the TEXT columns. *)
Example text_columns_keep_text :
  fst (serve (POST_students
         {| body_name := JNum 5; body_email := JStr "a@x.com";
            body_age := JNum 30; body_gender := JBool true |}) calm start) =
  res_json 201
    (JsonStudent {| id := 1; name := "5"; email := "a@x.com"; age := 30;
                    gender := "1"; created_at := clock |}).
Proof. reflexivity. Qed.

(** The INSERT is applied even when the read-back that follows it
    raises. *)
Example insert_stays_when_read_back_fails :
  fst (serve (POST_students ana) busy_on_second start) =
    internal_error "Failed to add student: " "SQLITE_BUSY: database is locked" /\
  rows (db (snd (serve (POST_students ana) busy_on_second start))) = [ana_row].
Proof. split; reflexivity. Qed.

(** *** The theorems on these requests *)


Lemma missing_field_bad_request_witness :
  missing (body_email no_email) /\
  status (fst (serve (POST_students no_email) calm one_student)) = 400 /\
  status (fst (serve (PUT_student "1" no_email) calm one_student)) = 400 /\
  rows (db (snd (serve (POST_students no_email) calm one_student))) = rows (db one_student) /\
  rows (db (snd (serve (PUT_student "1" no_email) calm one_student))) = rows (db one_student).
Proof.
  assert (M : missing (body_email no_email)) by (left; reflexivity).
  split; [exact M |].
  pose proof (missing_field_bad_request "1" no_email calm one_student
                (or_intror (or_introl M))) as H.
  cbv zeta in H. tauto.
Defined.


Lemma delete_returns_record_then_gone_witness :
  healthy calm = true /\
  select_by_id (SText "1") (db one_student) = Some ana_row /\
  fst (serve (DELETE_student "1") calm one_student) = res_json 200 (JsonStudent ana_row) /\
  status (fst (serve (GET_student "1") calm
                 (snd (serve (DELETE_student "1") calm one_student)))) = 404.
Proof.
  split; [reflexivity |]. split; [reflexivity |].
  pose proof (delete_returns_record_then_gone "1" calm calm one_student ana_row) as H.
  cbv zeta in H.
  destruct H as (R & _ & _ & G); try reflexivity.
  split; [exact R | exact G].
Defined.

Lemma get_students_all_descending_witness :
  NoDup (map id (rows (db two_students))) /\
  exists l,
    fst (serve GET_students calm two_students) = res_json 200 (JsonStudents l) /\
    Permutation l (rows (db two_students)) /\
    List.length l = List.length (rows (db two_students)) /\
    strictly_descending l /\
    db (snd (serve GET_students calm two_students)) = db two_students.
Proof.
  assert (N : NoDup (map id (rows (db two_students)))).
  { simpl. constructor.
    - simpl. intros [H | []]. discriminate H.
    - constructor; [intros [] | constructor]. }
  split; [exact N |].
  apply (get_students_all_descending calm two_students); [reflexivity | exact N].
Defined.

Lemma put_absent_not_found_witness :
  present (with_age (JStr "abc")) = true /\
  select_by_id (SText "7") (db one_student) = None /\
  fst (serve (PUT_student "7" (with_age (JStr "abc"))) calm one_student) = not_found "7" /\
  status (fst (serve (PUT_student "7" (with_age (JStr "abc"))) calm one_student)) = 404 /\
  db (snd (serve (PUT_student "7" (with_age (JStr "abc"))) calm one_student)) = db one_student.
Proof.
  split; [reflexivity |]. split; [reflexivity |].
  apply (put_absent_not_found "7" (with_age (JStr "abc")) calm one_student);
    reflexivity.
Defined.

Lemma id_unique_never_reused_witness :
  reachable two_students /\
  NoDup (map id (rows (db two_students))) /\
  created_id (fst (serve (POST_students ana) calm two_students)) = Some 3 /\
  created_id
    (fst (serve (POST_students ana) calm
            (serve_all [(DELETE_student "3", calm)]
               (snd (serve (POST_students ana) calm two_students))))) = Some 4 /\
  3 < 4.
Proof.
  assert (R : reachable two_students).
  { unfold two_students, one_student. repeat constructor. }
  split; [exact R |].
  destruct (id_unique_never_reused two_students R) as (N & _ & F).
  split; [exact N |]. split; [reflexivity |]. split; [reflexivity |].
  apply (F ana calm 3 [(DELETE_student "3", calm)] ana calm 4); reflexivity.
Defined.

Lemma falsy_age_bad_request_witness :
  truthy (body_age (with_age (JNum 0))) = false /\
  status (fst (serve (POST_students (with_age (JNum 0))) calm one_student)) = 400 /\
  status (fst (serve (PUT_student "1" (with_age (JNum 0))) calm one_student)) = 400 /\
  issued (snd (serve (POST_students (with_age (JNum 0))) calm one_student))
    = issued one_student /\
  issued (snd (serve (PUT_student "1" (with_age (JNum 0))) calm one_student))
    = issued one_student.
Proof.
  split; [reflexivity |].
  pose proof (falsy_age_bad_request "1" (with_age (JNum 0)) calm one_student
                eq_refl) as H.
  cbv zeta in H. tauto.
Defined.

Lemma storage_error_is_reported_witness :
  status (fst (serve GET_students io_error one_student)) = 500 /\
  (exists detail,
     body (fst (serve GET_students io_error one_student)) =
       JsonError "Internal Server Error" ("Failed to retrieve students: " ++ detail)%string /\
     console (snd (serve GET_students io_error one_student)) =
       (console one_student ++ [("Error fetching students:", detail)])%list /\
     (In (Some detail) (faults io_error) \/
      detail = database_full \/ exists column, detail = not_null_failed column)) /\
  (exists detail,
     Health.HealthError "SQLITE_IOERR: disk I/O error" = Health.HealthError detail /\
     In (Some detail) (faults io_error) /\
     fst (one_student, advance io_error) = one_student).
Proof.
  split; [reflexivity |].
  destruct (storage_error_is_reported (coercion := decimal_text) GET_students
              "2024-01-01T00:00:00.000Z" io_error one_student) as [St He].
  split; [apply St; reflexivity |].
  apply (He {| Health.health_status := 500;
               Health.health_body := Health.HealthError "SQLITE_IOERR: disk I/O error" |}
            (one_student, advance io_error)); reflexivity.
Defined.

Lemma post_unparsable_age_500_witness :
  starts_number "abc" = false /\
  parseInt (body_age (with_age (JStr "abc"))) = None /\
  status (fst (serve (POST_students (with_age (JStr "abc"))) calm one_student)) = 500 /\
  db (snd (serve (POST_students (with_age (JStr "abc"))) calm one_student)) = db one_student /\
  fst (serve (POST_students (with_age (JStr "abc"))) calm one_student) =
    internal_error "Failed to add student: " (not_null_failed "age").
Proof.
  split; [reflexivity |].
  destruct (post_unparsable_age_500 (with_age (JStr "abc")) calm one_student "abc")
    as (_ & P & _ & S & D & M); try reflexivity; try discriminate.
  split; [exact P |]. split; [exact S |]. split; [exact D |].
  apply M; reflexivity.
Defined.

(** *** Where the claims and the handlers part *)



(** C6, counterexample.  The INSERT of a record whose age is ["abc"]
    fails in the engine; the body of the 500 response that the client
    receives contains the engine's message, which names the constraint,
    the table and the column. *)
Lemma error_detail_in_response_counterexample :
  let resp := fst (serve (POST_students (with_age (JStr "abc"))) calm start) in
  let after := snd (serve (POST_students (with_age (JStr "abc"))) calm start) in
  let detail := "SQLITE_CONSTRAINT: NOT NULL constraint failed: student_details.age" in
  status resp = 500 /\
  console after = [("Error adding student:", detail)] /\
  body resp =
    JsonError "Internal Server Error"
      "Failed to add student: SQLITE_CONSTRAINT: NOT NULL constraint failed: student_details.age" /\
  (forall error message, body resp = JsonError error message ->
                         includes message detail = true).
Proof.
  cbv zeta. repeat split; try reflexivity.
  intros error message H. vm_compute in H. inversion H. reflexivity.
Qed.

(** C10, counterexample.  The age ["-5"] is a non-empty string whose
    first character is not a digit, yet [parseInt] reads it as -5, the
    INSERT is accepted and the response is 201 with a record created. *)
Lemma post_signed_age_counterexample :
  starts_with_digit "-5" = false /\
  "-5" <> "" /\
  parseInt (JStr "-5") = Some (-5) /\
  fst (serve (POST_students (with_age (JStr "-5"))) calm start) =
    res_json 201
      (JsonStudent {| id := 1; name := "Ana B"; email := "a@x.com"; age := -5;
                      gender := "Female"; created_at := clock |}) /\
  status (fst (serve (POST_students (with_age (JStr "-5"))) calm start)) <> 500 /\
  List.length (rows (db (snd (serve (POST_students (with_age (JStr "-5"))) calm start)))) = 1%nat.
Proof. repeat split; try reflexivity; discriminate. Qed.

(** *** The further properties on these requests *)

Lemma created_record_is_fetched_witness :
  fst (serve (POST_students ana) calm start) = res_json 201 (JsonStudent ana_row) /\
  text_as_integer (number_to_string (id ana_row)) = Some (id ana_row) /\
  fst (serve (GET_student "1") calm one_student) = res_json 200 (JsonStudent ana_row).
Proof.
  split; [reflexivity |]. split; [reflexivity |].
  exact (created_record_is_fetched (coercion := decimal_text) ana calm calm start ana_row
           ltac:(reflexivity) ltac:(reflexivity) ltac:(reflexivity)).
Defined.

Lemma updated_record_is_fetched_witness :
  fst (serve (GET_student "1") calm
         (snd (serve (PUT_student "1" ana_b) calm one_student)))
  = res_json 200 (JsonStudent updated_row).
Proof.
  exact (updated_record_is_fetched (coercion := decimal_text) "1" ana_b calm calm one_student updated_row
           ltac:(reflexivity) ltac:(reflexivity)).
Defined.

Lemma delete_absent_not_found_witness :
  select_by_id (SText "7") (db one_student) = None /\
  status (fst (serve (DELETE_student "7") calm one_student)) = 404 /\
  db (snd (serve (DELETE_student "7") calm one_student)) = db one_student.
Proof.
  split; [reflexivity |].
  destruct (delete_absent_not_found (coercion := decimal_text) "7" calm one_student ltac:(reflexivity) ltac:(reflexivity))
    as (_ & S & D & _).
  split; [exact S | exact D].
Defined.

Lemma delete_removes_one_witness :
  select_by_id (SText "1") (db two_students) = Some ana_row /\
  Permutation (rows (db two_students))
    (ana_row :: rows (db (snd (serve (DELETE_student "1") calm two_students)))) /\
  S (List.length (rows (db (snd (serve (DELETE_student "1") calm two_students)))))
  = List.length (rows (db two_students)).
Proof.
  split; [reflexivity |].
  assert (N : NoDup (map id (rows (db two_students)))).
  { simpl. constructor.
    - simpl. intros [H | []]. discriminate H.
    - constructor; [intros [] | constructor]. }
  pose proof (delete_removes_one (coercion := decimal_text) "1" calm two_students ana_row ltac:(reflexivity) N ltac:(reflexivity))
    as H.
  cbv zeta in H. destruct H as (P & _ & L & _). split; [exact P | exact L].
Defined.

Lemma refused_request_leaves_table_witness :
  status (fst (serve (PUT_student "7" ana_b) io_error one_student)) = 500 /\
  status (fst (serve (PUT_student "7" ana_b) calm one_student)) = 404 /\
  db (snd (serve (PUT_student "7" ana_b) calm one_student)) = db one_student.
Proof.
  split; [reflexivity |]. split; [reflexivity |].
  exact (refused_request_leaves_table (coercion := decimal_text) (PUT_student "7" ana_b) calm one_student
           ltac:(right; reflexivity)).
Defined.

Lemma create_fails_after_insert_witness :
  status (fst (serve (POST_students ana) busy_on_second start)) = 500 /\
  db (snd (serve (POST_students ana) busy_on_second start))
  = {| rows := [ana_row]; seq := 1 |} /\
  List.length (rows {| rows := [ana_row]; seq := 1 |})
  = S (List.length (rows (db start))).
Proof.
  destruct (create_fails_after_insert (coercion := decimal_text) ana busy_on_second start
              "SQLITE_BUSY: database is locked" []
              {| rows := [ana_row]; seq := 1 |} 1 ltac:(reflexivity) ltac:(reflexivity) ltac:(reflexivity))
    as (_ & S5 & D & L & _).
  split; [exact S5 |]. split; [exact D | exact L].
Defined.

Lemma update_fails_after_write_witness :
  status (fst (serve (PUT_student "1" ana_b) busy_on_second one_student)) = 500 /\
  rows (db (snd (serve (PUT_student "1" ana_b) busy_on_second one_student)))
  = [updated_row].
Proof.
  assert (C : 1 <> 0) by discriminate.
  destruct (update_fails_after_write (coercion := decimal_text) "1" ana_b busy_on_second one_student
              "SQLITE_BUSY: database is locked" []
              {| rows := [updated_row]; seq := 1 |} 1 ltac:(reflexivity) ltac:(reflexivity) ltac:(reflexivity) C)
    as (_ & S5 & D).
  split; [exact S5 |]. rewrite D. reflexivity.
Defined.

Lemma put_twice_witness :
  fst (serve (PUT_student "1" ana_b) calm
         (snd (serve (PUT_student "1" ana_b) calm one_student)))
  = fst (serve (PUT_student "1" ana_b) calm one_student) /\
  db (snd (serve (PUT_student "1" ana_b) calm
            (snd (serve (PUT_student "1" ana_b) calm one_student))))
  = db (snd (serve (PUT_student "1" ana_b) calm one_student)).
Proof.
  exact (put_twice (coercion := decimal_text) "1" ana_b calm calm one_student ltac:(reflexivity) ltac:(reflexivity)).
Defined.

Lemma created_record_heads_listing_witness :
  exists l,
    fst (serve GET_students calm one_student) = res_json 200 (JsonStudents l) /\
    fst (serve GET_students calm two_students)
    = res_json 200 (JsonStudents (second_row :: l)).
Proof.
  exact (created_record_heads_listing (coercion := decimal_text) ana_b calm calm calm one_student second_row
           ltac:(reflexivity) ltac:(reflexivity) ltac:(reflexivity)).
Defined.

Lemma numeric_age_stored_witness :
  safe_integer 30 = true /\
  exists r,
    fst (serve (POST_students (with_age (JNum 30))) calm one_student)
    = res_json 201 (JsonStudent r) /\
    age r = 30.
Proof.
  split; [reflexivity |].
  apply (numeric_age_stored (coercion := decimal_text) (with_age (JNum 30)) calm one_student 30);
    reflexivity.
Defined.

Lemma age_suffix_dropped_witness :
  body_age (with_age (JStr "21 years")) = JStr (number_to_string 21 ++ " years") /\
  safe_integer 21 = true /\
  exists r,
    fst (serve (POST_students (with_age (JStr "21 years"))) calm one_student)
    = res_json 201 (JsonStudent r) /\
    age r = 21.
Proof.
  split; [reflexivity |]. split; [reflexivity |].
  apply (age_suffix_dropped (coercion := decimal_text) (with_age (JStr "21 years")) calm one_student 21
           " years"); reflexivity.
Defined.

Lemma health_counts_listing_witness :
  exists l,
    fst (serve GET_students calm two_students) = res_json 200 (JsonStudents l) /\
    Health.get_health "2024-01-01T00:00:00.000Z" (two_students, calm) =
    (inr {| Health.health_status := 200;
            Health.health_body :=
              Health.HealthOk "2024-01-01T00:00:00.000Z" (Z.of_nat (List.length l)) |},
     (two_students, advance calm)).
Proof.
  exact (health_counts_listing (coercion := decimal_text) "2024-01-01T00:00:00.000Z" calm calm two_students
           ltac:(reflexivity) ltac:(reflexivity)).
Defined.

Lemma health_touches_nothing_witness :
  Health.get_health "2024-01-01T00:00:00.000Z" (one_student, io_error) =
  (inr {| Health.health_status := 500;
          Health.health_body := Health.HealthError "SQLITE_IOERR: disk I/O error" |},
   (one_student, advance io_error)).
Proof.
  destruct (health_touches_nothing "2024-01-01T00:00:00.000Z" io_error one_student)
    as (resp & G & _ & E).
  rewrite G, (E "SQLITE_IOERR: disk I/O error" [] ltac:(reflexivity)). reflexivity.
Defined.

Lemma ids_survive_restarts_witness :
  Startup.deployed one_student /\
  Startup.later (snd (serve (POST_students ana) calm one_student))
    {| db := db (snd (serve (POST_students ana) calm one_student));
       console := []; issued := [] |} /\
  created_id (fst (serve (POST_students ana) calm one_student)) = Some 2 /\
  created_id
    (fst (serve (POST_students ana) calm
            {| db := db (snd (serve (POST_students ana) calm one_student));
       console := []; issued := [] |})) = Some 3 /\
  2 < 3.
Proof.
  assert (D : Startup.deployed one_student).
  { exists calm, start. split; [reflexivity |].
    unfold one_student. apply Startup.later_serve, Startup.later_now. }
  assert (L : Startup.later (snd (serve (POST_students ana) calm one_student))
                {| db := db (snd (serve (POST_students ana) calm one_student));
       console := []; issued := [] |}).
  { apply (Startup.later_restart _ calm
             (snd (serve (POST_students ana) calm one_student)));
      [apply Startup.later_now | reflexivity]. }
  split; [exact D |]. split; [exact L |].
  split; [reflexivity |]. split; [reflexivity |].
  destruct (ids_survive_restarts (coercion := decimal_text) one_student D) as [_ F].
  exact (F ana calm 2 _ ana calm 3 ltac:(reflexivity) L ltac:(reflexivity)).
Defined.

Lemma failure_leaves_table_witness :
  status (fst (serve (PUT_student "1" (with_age (JStr "abc"))) calm one_student)) = 500 /\
  db (snd (serve (PUT_student "1" (with_age (JStr "abc"))) calm one_student))
  = db one_student.
Proof.
  split; [reflexivity |].
  apply (failure_leaves_table (coercion := decimal_text) (PUT_student "1" (with_age (JStr "abc"))) calm
           one_student); first [reflexivity | discriminate].
Defined.

Lemma submit_accepted_witness :
  let w := Client.handleSubmit wire wire (ana_typed, start) in
  Client.form (fst w) = Client.empty_form /\
  Client.editId (fst w) = None /\
  Client.isLoading (fst w) = false /\
  Client.error (fst w) = None /\
  Client.students (fst w) = JsonStudents [ana_row] /\
  db (snd w) = db one_student.
Proof.
  pose proof (submit_accepted (coercion := decimal_text) wire wire ana_typed start (JsonStudent ana_row)
                ltac:(reflexivity) ltac:(reflexivity)) as H.
  cbv zeta in *. destruct H as (F & E & L & B & S & D).
  repeat split; assumption.
Defined.

Lemma submit_refused_witness :
  let w := Client.handleSubmit unplugged wire (ana_typed, start) in
  Client.form (fst w) = ana /\
  Client.students (fst w) = JsonStudents [] /\
  Client.isLoading (fst w) = false /\
  Client.error (fst w) = Some "Failed to add student. Please try again.".
Proof.
  pose proof (submit_refused (coercion := decimal_text) unplugged wire ana_typed start ltac:(reflexivity)) as H.
  cbv zeta in *. destruct H as (F & _ & S & L & B & _).
  repeat split; assumption.
Defined.

Lemma page_shows_table_witness :
  Client.in_sync (ana_typed, start) /\
  Client.in_sync (Client.perform (Client.Submit wire wire) (ana_typed, start)) /\
  Client.students (fst (Client.perform (Client.Submit wire wire) (ana_typed, start)))
  = JsonStudents [ana_row].
Proof.
  assert (S : Client.in_sync (ana_typed, start)) by reflexivity.
  split; [exact S |]. split; [| reflexivity].
  exact (proj1 (page_shows_table (coercion := decimal_text) (Client.Submit wire wire) (ana_typed, start)
                  ltac:(reflexivity)) S).
Defined.

Lemma edit_then_save_unchanged_witness :
  let w := Client.handleSubmit wire wire
             (Client.handleEdit ana_row Client.first_render, one_student) in
  db (snd w) = db one_student /\
  Client.error (fst w) = None /\
  Client.form (fst w) = Client.empty_form /\
  Client.editId (fst w) = None /\
  Client.in_sync w.
Proof.
  assert (N : NoDup (map id (rows (db one_student)))).
  { simpl. constructor; [intros [] | constructor]. }
  apply (edit_then_save_unchanged (coercion := decimal_text) wire wire Client.first_render one_student ana_row);
    try reflexivity; try discriminate; try exact N.
  left. reflexivity.
Defined.

Lemma zero_age_not_saved_witness :
  let w := Client.handleSubmit wire wire
             (Client.handleEdit newborn Client.first_render, one_student) in
  Client.error (fst w) = Some "Failed to update student. Please try again." /\
  Client.editId (fst w) = Some 2 /\
  db (snd w) = db one_student.
Proof.
  assert (I : id newborn <> 0) by discriminate.
  pose proof (zero_age_not_saved (coercion := decimal_text) wire wire Client.first_render one_student newborn
                ltac:(reflexivity) I) as H.
  cbv zeta in *. destruct H as (B & E & _ & D). repeat split; assumption.
Defined.

End Runs.
